(** * show-terminal-input: a shallow embedding of [scripts/show-terminal-input.py]

    The script puts the terminal in raw mode, reads key events from standard
    input (coalescing bytes that arrive within a short window), prints one
    line per event and restores the terminal when it leaves.

    The embedding follows the source function by function.  Bytes are
    [Byte.byte], Python [bytes] values are lists of them, text is [string].
    The outside world (input stream, terminal attributes, standard output and
    error, wall clock) is an explicit [World] threaded through a small
    state-and-exception monad.

    Modelling choices:
    - times and durations are exact rationals where the source has floats;
    - the input stream is a finite schedule of timed bytes followed by
      silence, a hang-up or a failure; only blocking calls let time pass;
    - standard output takes a line as soon as it is printed, and may stop
      accepting lines;
    - the two [while True] loops take a budget of turns; the budget of the
      loop of [_read_event] is computed from the schedule and never runs out,
      the budget of the loop of [main] is a parameter;
    - signals sent to the process from outside are not part of the model. *)

From Stdlib Require Import List String Ascii ZArith QArith Qround Qminmax Lia Bool Arith.
From Stdlib.Strings Require Import Byte.
From Stdlib Require Import DecimalString Decimal DecimalNat.
Import ListNotations.

Local Open Scope string_scope.
Local Open Scope list_scope.

(** ** Byte strings *)

Definition bytes := list byte.

Definition byte_val (b : byte) : nat := N.to_nat (Byte.to_N b).

Fixpoint bytes_eqb (a b : bytes) : bool :=
  match a, b with
  | [], [] => true
  | x :: a', y :: b' => Byte.eqb x y && bytes_eqb a' b'
  | _, _ => false
  end.

(** [data.startswith(prefix)] *)
Fixpoint startswith (data prefix : bytes) : bool :=
  match prefix, data with
  | [], _ => true
  | p :: prefix', d :: data' => Byte.eqb d p && startswith data' prefix'
  | _ :: _, [] => false
  end.

(** ** Number formatting used by the f-strings *)

Definition hex_digit (n : nat) : ascii :=
  nth n (list_ascii_of_string "0123456789abcdef") "?"%char.

(** [f"{b:02x}"] for a byte. *)
Definition format_02x (b : byte) : string :=
  String (hex_digit (byte_val b / 16)) (String (hex_digit (byte_val b mod 16)) EmptyString).

Definition decimal (n : nat) : string := NilEmpty.string_of_uint (Nat.to_uint n).

Fixpoint replicate (n : nat) (c : ascii) : string :=
  match n with
  | O => EmptyString
  | S n' => String c (replicate n' c)
  end.

(** Left padding to a minimal width, as [:06d], [:02d] and [:>3] do. *)
Definition pad_left (width : nat) (c : ascii) (s : string) : string :=
  replicate (width - String.length s) c ++ s.

Definition format_06d (n : nat) : string := pad_left 6 "0"%char (decimal n).
Definition format_02d (n : nat) : string := pad_left 2 "0"%char (decimal n).
Definition format_r3 (n : nat) : string := pad_left 3 " "%char (decimal n).

(** [" ".join(parts)] *)
Fixpoint join (sep : string) (parts : list string) : string :=
  match parts with
  | [] => EmptyString
  | [p] => p
  | p :: rest => p ++ sep ++ join sep rest
  end.

(** ** [_describe_bytes] *)

Definition _describe_bytes (data : bytes) : string :=
  if bytes_eqb data [x0d] then "CR (\r) — often Enter/Return; also Ctrl+M"
  else if bytes_eqb data [x0a] then "LF (\n) — often newline; also Ctrl+J"
  else if bytes_eqb data [x09] then "TAB (\t) — also Ctrl+I"
  else if bytes_eqb data [x1b] then "ESC"
  else if bytes_eqb data [x7f] then "DEL (0x7f) — often Backspace"
  else if startswith data [x1b; x5b] then "ANSI CSI sequence (starts with ESC [)"
  else if startswith data [x1b; x4f] then "ANSI SS3 sequence (starts with ESC O)"
  else
    match data with
    | [b] =>
        if (0x00 <=? byte_val b)%nat && (byte_val b <=? 0x1F)%nat
        then "Control byte 0x" ++ format_02x b
        else ""
    | _ => ""
    end.

(** ** The outside world *)

(** Terminal attributes as [termios.tcgetattr] reports them: the four
    line-discipline switches that raw mode turns off, and the remainder of the
    structure as one number. *)
Record Attrs := {
  icanon : bool;
  echo : bool;
  isig : bool;
  opost : bool;
  others : Z
}.

(** What [tty.setraw] (Python standard library) makes of the attributes. *)
Definition cfmakeraw (a : Attrs) : Attrs :=
  {| icanon := false; echo := false; isig := false; opost := false; others := others a |}.

Inductive When := TCSANOW | TCSADRAIN | TCSAFLUSH.

(** The terminal system calls, logged in the order they are made. *)
Inductive TermCall :=
| TcGetAttr (fd : Z)
| TcSetAttr (fd : Z) (when : When) (a : Attrs).

(** What the input stream does once every scheduled byte has been delivered:
    stay silent for ever, report end of file (hang-up), or fail. *)
Inductive Ending := Silent | HangUp | Broken.

Inductive Exn :=
| OSError
| BrokenPipeError
| ValueError
| TermiosError.

(** The input is a schedule: each byte with the time (in seconds on the wall
    clock) from which it can be read.  Bytes are delivered in order.  Time
    passes only while the program is blocked in [os.read] or [select.select]. *)
Record World := {
  stdin_isatty : bool;
  pending : list (Q * byte);
  ending : Ending;
  clock : Q;
  attrs : Attrs;
  term_log : list TermCall;
  stdout : list string;
  stdout_room : option nat;
  stderr : list string
}.

Definition set_pending (p : list (Q * byte)) (w : World) : World :=
  {| stdin_isatty := stdin_isatty w; pending := p; ending := ending w; clock := clock w;
     attrs := attrs w; term_log := term_log w; stdout := stdout w;
     stdout_room := stdout_room w; stderr := stderr w |}.

Definition set_clock (t : Q) (w : World) : World :=
  {| stdin_isatty := stdin_isatty w; pending := pending w; ending := ending w; clock := t;
     attrs := attrs w; term_log := term_log w; stdout := stdout w;
     stdout_room := stdout_room w; stderr := stderr w |}.

Definition set_attrs (a : Attrs) (w : World) : World :=
  {| stdin_isatty := stdin_isatty w; pending := pending w; ending := ending w; clock := clock w;
     attrs := a; term_log := term_log w; stdout := stdout w;
     stdout_room := stdout_room w; stderr := stderr w |}.

Definition log_call (c : TermCall) (w : World) : World :=
  {| stdin_isatty := stdin_isatty w; pending := pending w; ending := ending w; clock := clock w;
     attrs := attrs w; term_log := term_log w ++ [c]; stdout := stdout w;
     stdout_room := stdout_room w; stderr := stderr w |}.

Definition write_stdout (line : string) (room : option nat) (w : World) : World :=
  {| stdin_isatty := stdin_isatty w; pending := pending w; ending := ending w; clock := clock w;
     attrs := attrs w; term_log := term_log w; stdout := stdout w ++ [line];
     stdout_room := room; stderr := stderr w |}.

Definition write_stderr (line : string) (w : World) : World :=
  {| stdin_isatty := stdin_isatty w; pending := pending w; ending := ending w; clock := clock w;
     attrs := attrs w; term_log := term_log w; stdout := stdout w;
     stdout_room := stdout_room w; stderr := stderr w ++ [line] |}.

(** ** The monad: state, exceptions, blocking and fuel *)

Inductive Res (A : Type) : Type :=
| Ok (a : A) (w : World)          (* returned [a] *)
| Raise (e : Exn) (w : World)     (* an exception is propagating *)
| Blocked (w : World)             (* waits for input that never comes *)
| OutOfFuel (w : World).          (* the loop budget of the model is spent *)

Arguments Ok {A} a w.
Arguments Raise {A} e w.
Arguments Blocked {A} w.
Arguments OutOfFuel {A} w.

Definition M (A : Type) : Type := World -> Res A.

Definition ret {A} (a : A) : M A := fun w => Ok a w.

Definition bind {A B} (m : M A) (k : A -> M B) : M B :=
  fun w =>
    match m w with
    | Ok a w1 => k a w1
    | Raise e w1 => Raise e w1
    | Blocked w1 => Blocked w1
    | OutOfFuel w1 => OutOfFuel w1
    end.

Definition raise {A} (e : Exn) : M A := fun w => Raise e w.

(** [try: body finally: handler].  The handler runs when the body returns and
    when it raises; an exception of the handler replaces the one in flight. *)
Definition try_finally {A} (body : M A) (handler : M unit) : M A :=
  fun w =>
    match body w with
    | Ok a w1 => bind handler (fun _ => ret a) w1
    | Raise e w1 => bind handler (fun _ => raise e) w1
    | Blocked w1 => Blocked w1
    | OutOfFuel w1 => OutOfFuel w1
    end.

Declare Scope io_scope.
Delimit Scope io_scope with io.
Notation "x <- m ;; k" := (bind m (fun x => k))
  (at level 100, m at next level, right associativity) : io_scope.
Notation "m ;; k" := (bind m (fun _ => k))
  (at level 100, right associativity) : io_scope.
Local Open Scope io_scope.

Definition world_of {A} (r : Res A) : World :=
  match r with
  | Ok _ w | Raise _ w | Blocked w | OutOfFuel w => w
  end.

(** ** System calls and library calls *)

(** [sys.stdin.isatty()] *)
Definition isatty : M bool := fun w => Ok (stdin_isatty w) w.

(** [sys.stdin.fileno()] *)
Definition fileno : Z := 0%Z.

(** [termios.tcgetattr(fd)] *)
Definition tcgetattr (fd : Z) : M Attrs :=
  fun w =>
    if stdin_isatty w then Ok (attrs w) (log_call (TcGetAttr fd) w)
    else Raise TermiosError (log_call (TcGetAttr fd) w).

(** The bytes of the schedule that can be read at time [now]. *)
Fixpoint ready_bytes (now : Q) (p : list (Q * byte)) : bytes :=
  match p with
  | (at_, b) :: p' => if Qle_bool at_ now then b :: ready_bytes now p' else []
  | [] => []
  end.

Fixpoint drop_ready (now : Q) (p : list (Q * byte)) : list (Q * byte) :=
  match p with
  | (at_, b) :: p' => if Qle_bool at_ now then drop_ready now p' else p
  | [] => []
  end.

(** [termios.tcsetattr(fd, when, a)]; [TCSAFLUSH] discards the input that has
    arrived and has not been read. *)
Definition tcsetattr (fd : Z) (when : When) (a : Attrs) : M unit :=
  fun w =>
    if stdin_isatty w then
      let w1 := set_attrs a (log_call (TcSetAttr fd when a) w) in
      match when with
      | TCSAFLUSH => Ok tt (set_pending (drop_ready (clock w) (pending w)) w1)
      | _ => Ok tt w1
      end
    else Raise TermiosError (log_call (TcSetAttr fd when a) w).

(** [tty.setraw(fd)], with its default [when=TCSAFLUSH]. *)
Definition setraw (fd : Z) : M unit :=
  mode <- tcgetattr fd ;;
  tcsetattr fd TCSAFLUSH (cfmakeraw mode).

(** Up to [n] leading bytes of the schedule readable at [now], and the rest
    of the schedule. *)
Fixpoint take_ready (n : nat) (now : Q) (p : list (Q * byte)) : bytes * list (Q * byte) :=
  match n, p with
  | S n', (at_, b) :: p' =>
      if Qle_bool at_ now
      then let (got, rest) := take_ready n' now p' in (b :: got, rest)
      else ([], p)
  | _, _ => ([], p)
  end.

(** [os.read(fd, n)] on standard input in raw mode: blocks until a byte can be
    read, then returns what is there, [n] bytes at most; returns no byte at
    end of file. *)
Definition os_read (fd : Z) (n : nat) : M bytes :=
  fun w =>
    match pending w with
    | (at_, _) :: _ =>
        let w1 := if Qle_bool at_ (clock w) then w else set_clock at_ w in
        let (got, rest) := take_ready n (clock w1) (pending w) in
        Ok got (set_pending rest w1)
    | [] =>
        match ending w with
        | HangUp => Ok [] w
        | Broken => Raise OSError w
        | Silent => Blocked w
        end
    end.

(** [select.select(rlist, [], [], timeout)], first component of the result:
    the descriptors of [rlist] that became readable within [timeout] seconds.
    End of file and errors count as readable. *)
Definition select (rlist : list Z) (timeout : Q) : M (list Z) :=
  fun w =>
    if negb (Qle_bool 0 timeout) then Raise ValueError w
    else
      match pending w with
      | (at_, _) :: _ =>
          if Qle_bool at_ (clock w) then Ok rlist w
          else if Qle_bool at_ (clock w + timeout) then Ok rlist (set_clock at_ w)
          else Ok [] (set_clock (clock w + timeout) w)
      | [] =>
          match ending w with
          | Silent => Ok [] (set_clock (clock w + timeout) w)
          | HangUp | Broken => Ok rlist w
          end
      end.

(** [print(line)] on standard output.  [stdout_room] is the number of lines
    the output still accepts ([None]: no limit); past it the write fails. *)
Definition print (line : string) : M unit :=
  fun w =>
    match stdout_room w with
    | None => Ok tt (write_stdout line None w)
    | Some (S n) => Ok tt (write_stdout line (Some n) w)
    | Some O => Raise BrokenPipeError w
    end.

(** [print(line, file=sys.stderr)] *)
Definition print_stderr (line : string) : M unit :=
  fun w => Ok tt (write_stderr line w).

(** [sys.stdout.flush()]: lines are recorded in [stdout] as soon as they are
    printed, so there is nothing left to push. *)
Definition flush_stdout : M unit := ret tt.

(** [time.strftime("%H:%M:%S")]: the clock counts seconds from local midnight. *)
Definition hms (t : Q) : string :=
  let s := Z.to_nat (Qfloor t) in
  format_02d ((s / 3600) mod 24) ++ ":" ++ format_02d ((s / 60) mod 60)
  ++ ":" ++ format_02d (s mod 60).

Definition strftime_HMS : M string := fun w => Ok (hms (clock w)) w.

(** ** [_read_event] *)

(** The [while True] loop of [_read_event].  Every turn that does not leave
    the loop takes at least one byte off the schedule, so the number of
    scheduled bytes, plus one, bounds the number of turns. *)
Fixpoint coalesce (fuel : nat) (fd : Z) (coalesce_timeout_s : Q) (data : bytes) : M bytes :=
  match fuel with
  | O => fun w => OutOfFuel w
  | S fuel' =>
      ready <- select [fd] coalesce_timeout_s ;;
      match ready with
      | [] => ret data
      | _ :: _ =>
          chunk <- os_read fd 1024 ;;
          match chunk with
          | [] => ret data
          | _ :: _ => coalesce fuel' fd coalesce_timeout_s (data ++ chunk)
          end
      end
  end.

Definition _read_event (fd : Z) (coalesce_timeout_s : Q) : M bytes :=
  data <- os_read fd 1 ;;
  fun w => coalesce (S (List.length (pending w))) fd coalesce_timeout_s data w.

(** ** The output line of one event *)

Definition backslash : ascii := ascii_of_byte x5c.

Definition mem_byte (c : byte) (data : bytes) : bool := existsb (Byte.eqb c) data.

(** One byte inside [repr(data)]. *)
Definition repr_byte (quote : byte) (c : byte) : string :=
  if Byte.eqb c quote || Byte.eqb c x5c then String backslash (String (ascii_of_byte c) EmptyString)
  else if Byte.eqb c x09 then "\t"
  else if Byte.eqb c x0a then "\n"
  else if Byte.eqb c x0d then "\r"
  else if (byte_val c <? 32)%nat || (127 <=? byte_val c)%nat then "\x" ++ format_02x c
  else String (ascii_of_byte c) EmptyString.

(** [repr(data)] for a [bytes] value: single quotes, unless the value holds a
    single quote and no double quote. *)
Definition bytes_repr (data : bytes) : string :=
  let quote := if mem_byte x27 data && negb (mem_byte x22 data) then x22 else x27 in
  String "b" (String (ascii_of_byte quote)
    (String.concat "" (map (repr_byte quote) data) ++ String (ascii_of_byte quote) EmptyString)).

Definition safe_char (b : byte) : ascii :=
  if (32 <=? byte_val b)%nat && (byte_val b <=? 126)%nat then ascii_of_byte b else "."%char.

Definition event_line (counter : nat) (ts : string) (data : bytes) : string :=
  let hex_bytes := join " " (map format_02x data) in
  let description := _describe_bytes data in
  let description :=
    if (String.length description =? 0)%nat then description
    else (" | " ++ description)%string in
  let safe_repr := string_of_list_ascii (map safe_char data) in
  "[" ++ format_06d counter ++ " " ++ ts ++ "] len=" ++ format_r3 (List.length data)
  ++ " hex=" ++ hex_bytes ++ " repr=" ++ bytes_repr data
  ++ " ascii='" ++ safe_repr ++ "'" ++ description.

(** ** [main] *)

Record Args := { coalesce_ms : Q }.

Inductive Flow :=
| Break
| Continue (counter : nat).

(** One turn of the [while True] loop of [main]. *)
Definition loop_iteration (fd : Z) (coalesce_timeout_s : Q) (counter : nat) : M Flow :=
  data <- _read_event fd coalesce_timeout_s ;;
  if bytes_eqb data [x71] || bytes_eqb data [x03] then ret Break
  else
    let counter := (counter + 1)%nat in
    ts <- strftime_HMS ;;
    print (event_line counter ts data) ;;
    flush_stdout ;;
    ret (Continue counter).

(** The loop itself; it returns the counter it stopped with.  [fuel] bounds
    the number of turns: the loop of the source has no bound. *)
Fixpoint main_loop (fuel : nat) (fd : Z) (coalesce_timeout_s : Q) (counter : nat) : M nat :=
  match fuel with
  | O => fun w => OutOfFuel w
  | S fuel' =>
      flow <- loop_iteration fd coalesce_timeout_s counter ;;
      match flow with
      | Break => ret counter
      | Continue counter' => main_loop fuel' fd coalesce_timeout_s counter'
      end
  end.

Definition not_a_tty_message : string :=
  "stdin is not a TTY; run this in an interactive terminal.".

Definition banner : list string :=
  ["Reading from stdin in raw mode.";
   "Press keys to see the bytes your terminal sends.";
   "Exit: Ctrl+C (0x03) or 'q'.";
   ""].

(** [main], after [parser.parse_args()] has produced [args]. *)
Definition main (fuel : nat) (args : Args) : M Z :=
  tty <- isatty ;;
  if negb tty then
    print_stderr not_a_tty_message ;;
    ret 2%Z
  else
    let fd := fileno in
    old <- tcgetattr fd ;;
    let coalesce_timeout_s := Qmax (coalesce_ms args) 0 / 1000 in
    print "Reading from stdin in raw mode." ;;
    print "Press keys to see the bytes your terminal sends." ;;
    print "Exit: Ctrl+C (0x03) or 'q'." ;;
    print "" ;;
    try_finally
      (setraw fd ;;
       main_loop fuel fd coalesce_timeout_s 0)
      (tcsetattr fd TCSADRAIN old) ;;
    ret 0%Z.

(** [raise SystemExit(main())]: the status of the process is what [main]
    returns; an exception that leaves [main] is reported on standard error and
    the status is 1. *)
Inductive Outcome :=
| Exited (status : Z) (w : World)
| Running (w : World).

Definition exn_name (e : Exn) : string :=
  match e with
  | OSError => "OSError"
  | BrokenPipeError => "BrokenPipeError"
  | ValueError => "ValueError"
  | TermiosError => "termios.error"
  end.

(** What the interpreter prints for an exception that leaves [main]. *)
Definition traceback (e : Exn) : string :=
  "Traceback (most recent call last): " ++ exn_name e.

Definition script (fuel : nat) (args : Args) (w : World) : Outcome :=
  match main fuel args w with
  | Ok status w' => Exited status w'
  | Raise e w' => Exited 1 (write_stderr (traceback e) w')
  | Blocked w' => Running w'
  | OutOfFuel w' => Running w'
  end.

(** ** Auxiliary notions used in the statements *)

(** [w'] differs from [w] in the input schedule and the clock at most. *)
Definition same_outside (w w' : World) : Prop :=
  stdin_isatty w' = stdin_isatty w /\ ending w' = ending w /\ attrs w' = attrs w /\
  term_log w' = term_log w /\ stdout w' = stdout w /\
  stdout_room w' = stdout_room w /\ stderr w' = stderr w.

(** The world after [termios.tcsetattr(fd, termios.TCSADRAIN, old)]. *)
Definition restore_term (fd : Z) (old : Attrs) (w : World) : World :=
  set_attrs old (log_call (TcSetAttr fd TCSADRAIN old) w).

(** [w'] has the terminal, the input stream and standard error as [w] has
    them; standard output and the clock may differ. *)
Definition same_terminal (w w' : World) : Prop :=
  stdin_isatty w' = stdin_isatty w /\ attrs w' = attrs w /\
  term_log w' = term_log w /\ stderr w' = stderr w.

(** The result is a result of the program, not the end of the model's budget. *)
Definition within_budget {A} (r : Res A) : Prop :=
  match r with
  | OutOfFuel _ => False
  | _ => True
  end.

Definition attrs_eqb (a b : Attrs) : bool :=
  Bool.eqb (icanon a) (icanon b) && Bool.eqb (echo a) (echo b) &&
  Bool.eqb (isig a) (isig b) && Bool.eqb (opost a) (opost b) &&
  Z.eqb (others a) (others b).

(** The number of calls in [log] that set the attributes of standard input
    back to [old], [termios.tcsetattr(fd, termios.TCSADRAIN, old)]. *)
Definition is_restore (old : Attrs) (c : TermCall) : bool :=
  match c with
  | TcSetAttr fd TCSADRAIN a => Z.eqb fd fileno && attrs_eqb a old
  | _ => false
  end.

Definition restore_count (old : Attrs) (log : list TermCall) : nat :=
  List.length (filter (is_restore old) log).

(** The four banner lines fit in what standard output accepts. *)
Definition banner_fits (w : World) : Prop :=
  match stdout_room w with
  | None => True
  | Some n => (4 <= n)%nat
  end.

(** The lines printed after the banner, between world [w0] (before the
    program starts) and world [w']. *)
Definition event_lines (w0 w' : World) : list string :=
  skipn (List.length (stdout w0) + 4) (stdout w').

(** Event lines numbered upward from [counter + 1]. *)
Fixpoint numbered (counter : nat) (evs : list (string * bytes)) : list string :=
  match evs with
  | [] => []
  | (ts, data) :: evs' => event_line (S counter) ts data :: numbered (S counter) evs'
  end.

(** The label that rule 8 gives to a single control byte. *)
Definition control_label (b : byte) : string := "Control byte 0x" ++ format_02x b.

(** Reading two lowercase hexadecimal digits back. *)
Definition hex_value (c : ascii) : option nat :=
  let n := nat_of_ascii c in
  if (48 <=? n)%nat && (n <=? 57)%nat then Some (n - 48)%nat
  else if (97 <=? n)%nat && (n <=? 102)%nat then Some (n - 87)%nat
  else None.

Definition read_hex2 (s : string) : option nat :=
  match s with
  | String hi (String lo EmptyString) =>
      match hex_value hi, hex_value lo with
      | Some h, Some l => Some (16 * h + l)%nat
      | _, _ => None
      end
  | _ => None
  end.

(** Reading an event line back: the counter it shows is the number written
    in decimal digits straight after the opening bracket. *)
Definition is_digit (c : ascii) : bool :=
  (48 <=? nat_of_ascii c)%nat && (nat_of_ascii c <=? 57)%nat.

Fixpoint leading_digits (s : string) : string :=
  match s with
  | String c s' => if is_digit c then String c (leading_digits s') else EmptyString
  | EmptyString => EmptyString
  end.

Definition displayed_counter (line : string) : option nat :=
  match line with
  | String "["%char rest =>
      match leading_digits rest with
      | EmptyString => None
      | digits => option_map Nat.of_uint (NilEmpty.uint_of_string digits)
      end
  | _ => None
  end.

(** What [main] does on a terminal before it enters its loop, and the world
    in which the loop starts. *)
Definition startup : M unit :=
  _ <- tcgetattr fileno ;;
  print "Reading from stdin in raw mode." ;;
  print "Press keys to see the bytes your terminal sends." ;;
  print "Exit: Ctrl+C (0x03) or 'q'." ;;
  print "" ;;
  setraw fileno.

Definition raw_world (w : World) : World := world_of (startup w).

(** The window [main] computes from its arguments. *)
Definition window (args : Args) : Q := Qmax (coalesce_ms args) 0 / 1000.

(** ** Sample worlds *)

Definition cooked : Attrs :=
  {| icanon := true; echo := true; isig := true; opost := true; others := 0 |}.

(** An interactive terminal at noon with input schedule [p]. *)
Definition terminal (p : list (Q * byte)) (e : Ending) : World :=
  {| stdin_isatty := true; pending := p; ending := e; clock := 43200;
     attrs := cooked; term_log := []; stdout := []; stdout_room := None; stderr := [] |}.

(** Standard input redirected from a file. *)
Definition redirected (p : list (Q * byte)) : World :=
  {| stdin_isatty := false; pending := p; ending := HangUp; clock := 43200;
     attrs := cooked; term_log := []; stdout := []; stdout_room := None; stderr := [] |}.

(** The up-arrow key (ESC [ A in one burst) at 12:00:01, then [q] a second later. *)
Definition up_arrow_then_q : World :=
  terminal [(43201, x1b); (43201, x5b); (43201, x41); (43202, x71)] Silent.

(** Two bytes in one burst, after which the terminal hangs up. *)
Definition burst_then_hangup : World :=
  terminal [(43201, x1b); (43201, x5b)] HangUp.

(** A key held at 12:00:01 whose read fails: the terminal has gone away. *)
Definition lost_terminal : World := terminal [(43201, x41)] Broken.

(** [q] and [a] arriving in one burst, then silence. *)
Definition q_with_company : World := terminal [(43201, x71); (43201, x61)] Silent.

(** Three keys a second apart: [a], F1 (ESC O P in one burst), Enter. *)
Definition three_keys : World :=
  terminal [(43201, x61); (43202, x1b); (43202, x4f); (43202, x50); (43203, x0d)] Silent.

Definition default_args : Args := {| coalesce_ms := 20 |}.

(** ** Notions used in the further properties *)

Definition csi_label : string := "ANSI CSI sequence (starts with ESC [)".
Definition ss3_label : string := "ANSI SS3 sequence (starts with ESC O)".

(** A character a terminal shows as it is: no control character, no DEL. *)
Definition printable_char (c : ascii) : bool :=
  (32 <=? nat_of_ascii c)%nat && negb (nat_of_ascii c =? 127)%nat.

Fixpoint no_control (s : string) : bool :=
  match s with
  | EmptyString => true
  | String c s' => printable_char c && no_control s'
  end.

(** Reading the [hex=] field of an event line back: pairs of lowercase
    hexadecimal digits separated by single spaces. *)
Fixpoint decode_hex (s : string) : option bytes :=
  match s with
  | EmptyString => Some []
  | String hi (String lo rest) =>
      match read_hex2 (String hi (String lo EmptyString)) with
      | Some n =>
          match Byte.of_N (N.of_nat n) with
          | Some b =>
              match rest with
              | EmptyString => Some [b]
              | String sp rest' =>
                  if Ascii.eqb sp " " then option_map (cons b) (decode_hex rest') else None
              end
          | None => None
          end
      | None => None
      end
  | String _ EmptyString => None
  end.

(** The run of bytes that one event takes off a schedule when the clock
    shows [now]: a byte joins the run when it is there already or arrives
    within [t] seconds of the moment the previous one was taken.  The result
    is the run and the rest of the schedule. *)
Fixpoint burst (t now : Q) (p : list (Q * byte)) : bytes * list (Q * byte) :=
  match p with
  | [] => ([], [])
  | (at_, b) :: p' =>
      if Qle_bool at_ now then
        let (run, rest) := burst t now p' in (b :: run, rest)
      else if Qle_bool at_ (now + t) then
        let (run, rest) := burst t at_ p' in (b :: run, rest)
      else ([], p)
  end.



(** ESC [ A with 5 ms between the bytes, and with 50 ms between them. *)
Definition up_arrow_fast : World :=
  terminal [(43201, x1b); (43201 + 5 / 1000, x5b); (43201 + 10 / 1000, x41)] Silent.

Definition up_arrow_slow : World :=
  terminal [(43201, x1b); (43201 + 50 / 1000, x5b); (43201 + 100 / 1000, x41)] Silent.

(** * Properties *)

(** ** Byte strings and the describer *)

Lemma bytes_eqb_eq : forall a b, bytes_eqb a b = true <-> a = b.
Proof.
  induction a as [|x a IH]; destruct b as [|y b]; simpl; split; intro H;
    try reflexivity; try discriminate.
  - apply andb_true_iff in H. destruct H as [Hxy Hab].
    apply Byte.byte_dec_bl in Hxy. apply IH in Hab. congruence.
  - injection H as -> ->. apply andb_true_iff. split.
    + now apply Byte.byte_dec_lb.
    + now apply IH.
Qed.

Lemma bytes_eqb_refl : forall a, bytes_eqb a a = true.
Proof. intro a. now apply bytes_eqb_eq. Qed.

Lemma bytes_eqb_neq : forall a b, a <> b -> bytes_eqb a b = false.
Proof.
  intros a b H. destruct (bytes_eqb a b) eqn:E; [|reflexivity].
  apply bytes_eqb_eq in E. contradiction.
Qed.

Example describe_up_arrow :
  _describe_bytes [x1b; x5b; x41] = "ANSI CSI sequence (starts with ESC [)".
Proof. reflexivity. Qed.

Example describe_f1 :
  _describe_bytes [x1b; x4f; x50] = "ANSI SS3 sequence (starts with ESC O)".
Proof. reflexivity. Qed.

Example describe_letter : _describe_bytes [x41] = "".
Proof. reflexivity. Qed.

Example describe_unit_separator : _describe_bytes [x1f] = "Control byte 0x1f".
Proof. reflexivity. Qed.

(** C4.  The five single bytes CR, LF, TAB, ESC and DEL get their own label:
    the exact-match rules come before the control-byte rule, although CR, LF,
    TAB and ESC also satisfy the latter's range test. *)
Theorem describe_named_bytes :
  _describe_bytes [x0d] = "CR (\r) — often Enter/Return; also Ctrl+M" /\
  _describe_bytes [x0a] = "LF (\n) — often newline; also Ctrl+J" /\
  _describe_bytes [x09] = "TAB (\t) — also Ctrl+I" /\
  _describe_bytes [x1b] = "ESC" /\
  _describe_bytes [x7f] = "DEL (0x7f) — often Backspace" /\
  (forall b, In b [x0d; x0a; x09; x1b; x7f] -> _describe_bytes [b] <> control_label b) /\
  (forall b, In b [x0d; x0a; x09; x1b] -> (byte_val b <= 0x1F)%nat).
Proof.
  repeat split; try reflexivity.
  - intros b Hb. simpl in Hb.
    repeat (destruct Hb as [<- | Hb]; [vm_compute; discriminate|]).
    contradiction.
  - intros b Hb. simpl in Hb.
    repeat (destruct Hb as [<- | Hb]; [vm_compute; lia|]).
    contradiction.
Qed.

(** C5.  Every other single byte of the range 0x00..0x1F is labelled as a
    control byte, the label ending in two lowercase hexadecimal digits that
    read back as the value of the byte. *)
Theorem describe_control_byte :
  forall b : byte,
    (byte_val b <= 0x1F)%nat ->
    b <> x09 -> b <> x0d -> b <> x0a -> b <> x1b ->
    _describe_bytes [b] = control_label b /\
    read_hex2 (format_02x b) = Some (byte_val b).
Proof.
  intros b Hrange. apply Nat.leb_le in Hrange.
  destruct b; try (vm_compute in Hrange; discriminate Hrange);
    intros; try congruence; split; reflexivity.
Qed.

Lemma describe_control_byte_witness :
  (byte_val x03 <= 0x1F)%nat /\
  _describe_bytes [x03] = "Control byte 0x03" /\
  read_hex2 (format_02x x03) = Some 3%nat.
Proof.
  split.
  - vm_compute. lia.
  - apply (describe_control_byte x03); [vm_compute; lia | discriminate ..].
Defined.

Lemma format_02x_reads_back : forall b, read_hex2 (format_02x b) = Some (byte_val b).
Proof. intro b. destruct b; reflexivity. Qed.

(** ** The input schedule *)

Lemma Qle_bool_refl : forall q, Qle_bool q q = true.
Proof. intro q. apply Qle_bool_iff. apply Qle_refl. Qed.

Lemma Qle_bool_plus_0 :
  forall t, t == 0 -> forall a c, Qle_bool a (c + t) = Qle_bool a c.
Proof.
  intros t Ht a c.
  assert (E : c + t == c) by (rewrite Ht; apply Qplus_0_r).
  destruct (Qle_bool a c) eqn:H.
  - apply Qle_bool_iff. apply Qle_bool_iff in H. now rewrite E.
  - destruct (Qle_bool a (c + t)) eqn:H'; [|reflexivity].
    apply Qle_bool_iff in H'. rewrite E in H'.
    apply Qle_bool_iff in H'. congruence.
Qed.

Lemma Qle_bool_zero : forall t, t == 0 -> Qle_bool 0 t = true.
Proof. intros t Ht. apply Qle_bool_iff. rewrite Ht. apply Qle_refl. Qed.

Lemma take_ready_cons :
  forall n now at_ b p,
    Qle_bool at_ now = true ->
    take_ready (S n) now ((at_, b) :: p) =
    (b :: fst (take_ready n now p), snd (take_ready n now p)).
Proof.
  intros n now at_ b p H. simpl. rewrite H.
  now destruct (take_ready n now p).
Qed.

Lemma take_ready_bytes :
  forall n now p,
    map snd p = fst (take_ready n now p) ++ map snd (snd (take_ready n now p)).
Proof.
  induction n as [|n IH]; intros now p; [reflexivity|].
  destruct p as [|[at_ b] p]; [reflexivity|].
  simpl. destruct (Qle_bool at_ now); [|reflexivity].
  specialize (IH now p). destruct (take_ready n now p) as [got rest].
  simpl in *. now rewrite IH.
Qed.

Lemma take_ready_length :
  forall n now p, (List.length (snd (take_ready n now p)) <= List.length p)%nat.
Proof.
  induction n as [|n IH]; intros now p; [simpl; lia|].
  destruct p as [|[at_ b] p]; [simpl; lia|].
  simpl. destruct (Qle_bool at_ now); [|simpl; lia].
  specialize (IH now p). destruct (take_ready n now p) as [got rest].
  simpl in *. lia.
Qed.

Lemma take_ready_ready :
  forall n now p,
    ready_bytes now p =
    fst (take_ready n now p) ++ ready_bytes now (snd (take_ready n now p)).
Proof.
  induction n as [|n IH]; intros now p; [reflexivity|].
  destruct p as [|[at_ b] p]; [reflexivity|].
  simpl. destruct (Qle_bool at_ now) eqn:E.
  - specialize (IH now p). destruct (take_ready n now p) as [got rest].
    simpl in *. now rewrite IH.
  - simpl. now rewrite E.
Qed.

Lemma take_ready_drop :
  forall n now p,
    drop_ready now (snd (take_ready n now p)) = drop_ready now p.
Proof.
  induction n as [|n IH]; intros now p; [reflexivity|].
  destruct p as [|[at_ b] p]; [reflexivity|].
  simpl. destruct (Qle_bool at_ now) eqn:E.
  - specialize (IH now p). destruct (take_ready n now p) as [got rest].
    simpl in *. exact IH.
  - simpl. now rewrite E.
Qed.

(** ** Frame properties: reading touches the schedule and the clock only *)

Lemma same_outside_refl : forall w, same_outside w w.
Proof. intro w. unfold same_outside. tauto. Qed.

Lemma same_outside_trans :
  forall w1 w2 w3, same_outside w1 w2 -> same_outside w2 w3 -> same_outside w1 w3.
Proof.
  unfold same_outside. intros w1 w2 w3 H12 H23.
  decompose [and] H12. decompose [and] H23. repeat split; congruence.
Qed.

Lemma same_outside_set_clock : forall t w, same_outside w (set_clock t w).
Proof. intros t w. unfold same_outside. simpl. tauto. Qed.

Lemma same_outside_set_pending : forall p w, same_outside w (set_pending p w).
Proof. intros p w. unfold same_outside. simpl. tauto. Qed.

Create HintDb frame.
#[local] Hint Resolve same_outside_refl same_outside_set_clock
  same_outside_set_pending : frame.

Lemma select_frame :
  forall rlist t w, same_outside w (world_of (select rlist t w)).
Proof.
  intros rlist t w. unfold select.
  destruct (negb (Qle_bool 0 t)); simpl; auto with frame.
  destruct (pending w) as [|[at_ b] p].
  - destruct (ending w); simpl; auto with frame.
  - destruct (Qle_bool at_ (clock w)); simpl; auto with frame.
    destruct (Qle_bool at_ (clock w + t)); simpl; auto with frame.
Qed.

Lemma os_read_frame :
  forall fd n w, same_outside w (world_of (os_read fd n w)).
Proof.
  intros fd n w. unfold os_read.
  destruct (pending w) as [|[at_ b] p].
  - destruct (ending w); simpl; auto with frame.
  - destruct (Qle_bool at_ (clock w));
      destruct (take_ready n _ _) as [got rest]; simpl;
      eauto using same_outside_trans with frame.
Qed.

(** ** The system calls, case by case *)

Section Calls.
Variables (fd : Z) (w : World).

Lemma os_read_ready :
  forall n at_ b p,
    pending w = (at_, b) :: p -> Qle_bool at_ (clock w) = true ->
    os_read fd (S n) w =
    Ok (b :: fst (take_ready n (clock w) p))
       (set_pending (snd (take_ready n (clock w) p)) w).
Proof.
  intros n at_ b p Hp Hle. unfold os_read. rewrite Hp, Hle.
  now rewrite (take_ready_cons _ _ _ _ _ Hle).
Qed.

Lemma os_read_wait :
  forall n at_ b p,
    pending w = (at_, b) :: p -> Qle_bool at_ (clock w) = false ->
    os_read fd (S n) w =
    Ok (b :: fst (take_ready n at_ p))
       (set_pending (snd (take_ready n at_ p)) (set_clock at_ w)).
Proof.
  intros n at_ b p Hp Hle. unfold os_read. rewrite Hp, Hle.
  cbn [clock set_clock].
  now rewrite (take_ready_cons _ _ _ _ _ (Qle_bool_refl at_)).
Qed.

Lemma os_read_end :
  forall n,
    pending w = [] ->
    os_read fd n w =
    match ending w with
    | HangUp => Ok [] w
    | Broken => Raise OSError w
    | Silent => Blocked w
    end.
Proof. intros n Hp. unfold os_read. now rewrite Hp. Qed.

Lemma select_head :
  forall rlist t at_ b p,
    Qle_bool 0 t = true -> pending w = (at_, b) :: p ->
    select rlist t w =
    if Qle_bool at_ (clock w) then Ok rlist w
    else if Qle_bool at_ (clock w + t) then Ok rlist (set_clock at_ w)
    else Ok [] (set_clock (clock w + t) w).
Proof. intros rlist t at_ b p Ht Hp. unfold select. now rewrite Ht, Hp. Qed.

Lemma select_end :
  forall rlist t,
    Qle_bool 0 t = true -> pending w = [] ->
    select rlist t w =
    match ending w with
    | Silent => Ok [] (set_clock (clock w + t) w)
    | _ => Ok rlist w
    end.
Proof.
  intros rlist t Ht Hp. unfold select. rewrite Ht, Hp. simpl.
  now destruct (ending w).
Qed.
End Calls.

(** ** The coalescing loop *)

Lemma coalesce_timeout :
  forall fuel fd t data w w1,
    select [fd] t w = Ok [] w1 ->
    coalesce (S fuel) fd t data w = Ok data w1.
Proof. intros. simpl. unfold bind. now rewrite H. Qed.

Lemma coalesce_closed :
  forall fuel fd t data w w1 w2,
    select [fd] t w = Ok [fd] w1 -> os_read fd 1024 w1 = Ok [] w2 ->
    coalesce (S fuel) fd t data w = Ok data w2.
Proof. intros. simpl. unfold bind. now rewrite H, H0. Qed.

Lemma coalesce_more :
  forall fuel fd t data w w1 c cs w2,
    select [fd] t w = Ok [fd] w1 -> os_read fd 1024 w1 = Ok (c :: cs) w2 ->
    coalesce (S fuel) fd t data w = coalesce fuel fd t (data ++ c :: cs) w2.
Proof. intros. simpl. unfold bind. now rewrite H, H0. Qed.

Lemma coalesce_fault :
  forall fuel fd t data w w1 e w2,
    select [fd] t w = Ok [fd] w1 -> os_read fd 1024 w1 = Raise e w2 ->
    coalesce (S fuel) fd t data w = Raise e w2.
Proof. intros. simpl. unfold bind. now rewrite H, H0. Qed.

(** With a non-negative window the loop always comes to an end: it returns
    the bytes it was given followed by the bytes it took off the schedule, or
    it raises because the stream is broken. *)
Lemma coalesce_spec :
  forall fuel fd t data w,
    (List.length (pending w) < fuel)%nat -> Qle_bool 0 t = true ->
    (exists more w',
        coalesce fuel fd t data w = Ok (data ++ more) w' /\
        map snd (pending w) = more ++ map snd (pending w') /\
        same_outside w w') \/
    (exists w',
        coalesce fuel fd t data w = Raise OSError w' /\
        ending w = Broken /\ same_outside w w').
Proof.
  induction fuel as [|fuel IH]; intros fd t data w Hlen Ht; [lia|].
  destruct (pending w) as [|[at_ b] p] eqn:Hp.
  - pose proof (select_end w [fd] t Ht Hp) as Hs.
    pose proof (os_read_end fd w 1024 Hp) as Hr.
    destruct (ending w) eqn:He.
    + left. exists [], (set_clock (clock w + t) w).
      rewrite (coalesce_timeout _ _ _ _ _ _ Hs), app_nil_r.
      simpl. rewrite Hp. auto with frame.
    + left. exists [], w.
      rewrite (coalesce_closed _ _ _ _ _ _ _ Hs Hr), app_nil_r.
      simpl. rewrite Hp. auto with frame.
    + right. exists w.
      rewrite (coalesce_fault _ _ _ _ _ _ _ _ Hs Hr). auto with frame.
  - pose proof (select_head w [fd] t at_ b p Ht Hp) as Hs.
    assert (Hstep : forall w1 now,
               pending w1 = (at_, b) :: p -> same_outside w w1 ->
               select [fd] t w = Ok [fd] w1 ->
               os_read fd 1024 w1 =
               Ok (b :: fst (take_ready 1023 now p))
                  (set_pending (snd (take_ready 1023 now p)) w1) ->
               (exists more w',
                   coalesce (S fuel) fd t data w = Ok (data ++ more) w' /\
                   map snd ((at_, b) :: p) = more ++ map snd (pending w') /\
                   same_outside w w') \/
               (exists w',
                   coalesce (S fuel) fd t data w = Raise OSError w' /\
                   ending w = Broken /\ same_outside w w')).
    { intros w1 now Hp1 Hf1 Hsel Hread.
      rewrite (coalesce_more _ _ _ _ _ _ _ _ _ Hsel Hread).
      pose proof (take_ready_length 1023 now p) as Hl.
      pose proof (take_ready_bytes 1023 now p) as Hb.
      destruct (take_ready 1023 now p) as [got rest]. simpl in *.
      destruct (IH fd t (data ++ b :: got) (set_pending rest w1)) as
        [(more & w' & Hc & Hm & Hf) | (w' & Hc & He & Hf)];
        [simpl; lia | exact Ht | |].
      - left. exists ((b :: got) ++ more), w'. rewrite Hc, app_assoc.
        split; [reflexivity|]. split.
        + simpl in Hm. simpl. rewrite Hb, Hm. now rewrite app_assoc.
        + eauto using same_outside_trans with frame.
      - right. exists w'. split; [exact Hc|]. split.
        + destruct Hf1 as (_ & E & _). simpl in He. congruence.
        + eauto using same_outside_trans with frame. }
    destruct (Qle_bool at_ (clock w)) eqn:H1.
    + apply (Hstep w (clock w)); auto with frame.
      exact (os_read_ready fd w 1023 at_ b p Hp H1).
    + destruct (Qle_bool at_ (clock w + t)) eqn:H2.
      * apply (Hstep (set_clock at_ w) at_); auto with frame.
        exact (os_read_ready fd (set_clock at_ w) 1023 at_ b p Hp (Qle_bool_refl at_)).
      * left. exists [], (set_clock (clock w + t) w).
        rewrite (coalesce_timeout _ _ _ _ _ _ Hs), app_nil_r.
        simpl. rewrite Hp. auto with frame.
Qed.

(** ** [_read_event] as a whole *)

Lemma coalesce_negative :
  forall fuel fd t data w,
    Qle_bool 0 t = false -> coalesce (S fuel) fd t data w = Raise ValueError w.
Proof. intros. simpl. unfold bind, select. now rewrite H. Qed.

Lemma os_read_one :
  forall fd w at_ b p,
    pending w = (at_, b) :: p ->
    exists w1,
      os_read fd 1 w = Ok [b] (set_pending p w1) /\
      (w1 = w \/ w1 = set_clock at_ w).
Proof.
  intros fd w at_ b p Hp. destruct (Qle_bool at_ (clock w)) eqn:H.
  - exists w. rewrite (os_read_ready fd w 0 at_ b p Hp H). auto.
  - exists (set_clock at_ w). rewrite (os_read_wait fd w 0 at_ b p Hp H). auto.
Qed.

(** At the end of the schedule the first read decides. *)
Lemma read_event_end :
  forall fd t w,
    Qle_bool 0 t = true -> pending w = [] ->
    _read_event fd t w =
    match ending w with
    | HangUp => Ok [] w
    | Broken => Raise OSError w
    | Silent => Blocked w
    end.
Proof.
  intros fd t w Ht Hp. unfold _read_event, bind at 1.
  rewrite (os_read_end fd w 1 Hp). destruct (ending w) eqn:He; try reflexivity.
  rewrite Hp. simpl List.length.
  apply coalesce_closed with (w1 := w).
  - now rewrite (select_end w [fd] t Ht Hp), He.
  - now rewrite (os_read_end fd w 1024 Hp), He.
Qed.

(** With a byte on the schedule, the event starts with it. *)
Lemma read_event_some :
  forall fd t w at_ b p,
    Qle_bool 0 t = true -> pending w = (at_, b) :: p ->
    (exists more w',
        _read_event fd t w = Ok (b :: more) w' /\
        map snd p = more ++ map snd (pending w') /\
        same_outside w w') \/
    (exists w',
        _read_event fd t w = Raise OSError w' /\
        ending w = Broken /\ same_outside w w').
Proof.
  intros fd t w at_ b p Ht Hp.
  destruct (os_read_one fd w at_ b p Hp) as (w1 & Hr & Hw1).
  assert (Hf : same_outside w (set_pending p w1)).
  { destruct Hw1 as [-> | ->]; eauto using same_outside_trans with frame. }
  assert (E : _read_event fd t w =
              coalesce (S (List.length (pending (set_pending p w1)))) fd t [b]
                (set_pending p w1)).
  { unfold _read_event, bind. now rewrite Hr. }
  rewrite E.
  destruct (coalesce_spec (S (List.length (pending (set_pending p w1)))) fd t [b]
              (set_pending p w1)) as [(more & w' & Hc & Hm & Hf') | (w' & Hc & He & Hf')];
    [lia | exact Ht | |].
  - left. exists more, w'. split; [exact Hc|]. split; [exact Hm|].
    eauto using same_outside_trans.
  - right. exists w'. split; [exact Hc|]. split.
    + destruct Hf as (_ & Hend & _). congruence.
    + eauto using same_outside_trans.
Qed.

Lemma read_event_negative :
  forall fd t w,
    Qle_bool 0 t = false ->
    _read_event fd t w =
    match os_read fd 1 w with
    | Ok _ w1 => Raise ValueError w1
    | Raise e w1 => Raise e w1
    | Blocked w1 => Blocked w1
    | OutOfFuel w1 => OutOfFuel w1
    end.
Proof.
  intros fd t w Ht. unfold _read_event, bind at 1.
  destruct (os_read fd 1 w); try reflexivity.
  now apply coalesce_negative.
Qed.

(** [_read_event] never exhausts the budget of its loop, and leaves
    everything but the input schedule and the clock as it was. *)
Lemma read_event_total :
  forall fd t w,
    within_budget (_read_event fd t w) /\
    same_outside w (world_of (_read_event fd t w)).
Proof.
  intros fd t w. destruct (Qle_bool 0 t) eqn:Ht.
  - destruct (pending w) as [|[at_ b] p] eqn:Hp.
    + rewrite (read_event_end fd t w Ht Hp).
      destruct (ending w); simpl; auto with frame.
    + destruct (read_event_some fd t w at_ b p Ht Hp) as
        [(more & w' & -> & _ & Hf) | (w' & -> & _ & Hf)]; simpl; auto.
  - rewrite (read_event_negative fd t w Ht).
    pose proof (os_read_frame fd 1 w) as Hf.
    assert (Hb : within_budget (os_read fd 1 w)).
    { unfold os_read. destruct (pending w) as [|[at_ b] p].
      - now destruct (ending w).
      - now destruct (take_ready 1 _ _). }
    destruct (os_read fd 1 w); simpl in *; auto.
Qed.

(** C8, as stated, fails: on a terminal that has hung up the first read
    returns no byte, the coalescing loop stops at once, and the event is empty. *)
Lemma read_event_empty_at_eof :
  _read_event fileno (20 / 1000) (terminal [] HangUp) = Ok [] (terminal [] HangUp) /\
  ~ (1 <= List.length (@nil byte))%nat.
Proof.
  split.
  - reflexivity.
  - simpl. lia.
Qed.

(** C8, amended.  When the input stream has a byte to deliver, every sequence
    [_read_event] returns starts with that byte, so it is not empty; and
    [_read_event] does return, unless the stream fails. *)
Theorem read_event_nonempty :
  forall fd t w at_ b p,
    pending w = (at_, b) :: p ->
    (forall data w',
        _read_event fd t w = Ok data w' ->
        exists more, data = b :: more /\ (1 <= List.length data)%nat) /\
    (Qle_bool 0 t = true -> ending w <> Broken ->
     exists more w', _read_event fd t w = Ok (b :: more) w').
Proof.
  intros fd t w at_ b p Hp. split.
  - intros data w' H. destruct (Qle_bool 0 t) eqn:Ht.
    + destruct (read_event_some fd t w at_ b p Ht Hp) as
        [(more & w1 & E & _) | (w1 & E & _)]; rewrite E in H; [|discriminate].
      injection H as <- _. exists more. split; [reflexivity | simpl; lia].
    + rewrite (read_event_negative fd t w Ht) in H.
      destruct (os_read_one fd w at_ b p Hp) as (w1 & E & _).
      rewrite E in H. discriminate.
  - intros Ht Hend.
    destruct (read_event_some fd t w at_ b p Ht Hp) as
      [(more & w1 & E & _) | (w1 & _ & E & _)]; [eauto | contradiction].
Qed.

Lemma read_event_nonempty_witness :
  pending (terminal [(43201, x1b); (43201, x5b); (43201, x41)] Silent)
  = (43201, x1b) :: [(43201, x5b); (43201, x41)] /\
  exists more w',
    _read_event fileno (20 / 1000)
      (terminal [(43201, x1b); (43201, x5b); (43201, x41)] Silent)
    = Ok (x1b :: more) w'.
Proof.
  split; [reflexivity|].
  apply (read_event_nonempty fileno (20 / 1000)
           (terminal [(43201, x1b); (43201, x5b); (43201, x41)] Silent)
           43201 x1b [(43201, x5b); (43201, x41)]); [reflexivity | reflexivity |].
  discriminate.
Defined.

(** C7.  On a stream that hangs up, [_read_event] never raises: it returns
    the bytes it has taken off the stream, all of them.  In particular, when
    the stream is found closed at a turn of the coalescing loop, the loop
    returns the bytes accumulated so far and leaves the world as it is. *)
Theorem read_event_stream_closed :
  forall fd t w,
    Qle_bool 0 t = true -> ending w = HangUp ->
    (exists data w',
        _read_event fd t w = Ok data w' /\
        map snd (pending w) = data ++ map snd (pending w') /\
        same_outside w w') /\
    (forall fuel data,
        pending w = [] ->
        os_read fd 1024 w = Ok [] w /\
        coalesce (S fuel) fd t data w = Ok data w).
Proof.
  intros fd t w Ht He. split.
  - destruct (pending w) as [|[at_ b] p] eqn:Hp.
    + exists [], w. rewrite (read_event_end fd t w Ht Hp), He, Hp.
      auto with frame.
    + destruct (read_event_some fd t w at_ b p Ht Hp) as
        [(more & w' & E & Hm & Hf) | (w' & _ & E & _)]; [|congruence].
      exists (b :: more), w'. split; [exact E|]. split; [|exact Hf].
      simpl. now rewrite Hm.
  - intros fuel data Hp.
    assert (Hr : os_read fd 1024 w = Ok [] w)
      by now rewrite (os_read_end fd w 1024 Hp), He.
    split; [exact Hr|].
    apply coalesce_closed with (w1 := w); [|exact Hr].
    now rewrite (select_end w [fd] t Ht Hp), He.
Qed.

Lemma read_event_stream_closed_witness :
  Qle_bool 0 (20 / 1000) = true /\
  ending (burst_then_hangup) = HangUp /\
  exists data w',
    _read_event fileno (20 / 1000) (burst_then_hangup)
    = Ok data w' /\
    map snd (pending (burst_then_hangup))
    = data ++ map snd (pending w') /\
    same_outside (burst_then_hangup) w'.
Proof.
  split; [reflexivity|]. split; [reflexivity|].
  exact (proj1 (read_event_stream_closed fileno (20 / 1000)
                  (burst_then_hangup)
                  eq_refl eq_refl)).
Defined.

Example read_event_two_bytes_then_closed :
  _read_event fileno (20 / 1000) (burst_then_hangup)
  = Ok [x1b; x5b]
      (set_pending [] (set_clock 43201 (burst_then_hangup))).
Proof. reflexivity. Qed.

(** ** A window of zero *)

Lemma coalesce_zero :
  forall fuel fd t data w,
    t == 0 ->
    (List.length (pending w) < fuel)%nat ->
    (drop_ready (clock w) (pending w) = [] -> ending w <> Broken) ->
    exists w',
      coalesce fuel fd t data w = Ok (data ++ ready_bytes (clock w) (pending w)) w' /\
      clock w' == clock w /\
      pending w' = drop_ready (clock w) (pending w) /\
      same_outside w w'.
Proof.
  induction fuel as [|fuel IH]; intros fd t data w Hzero Hlen Hend; [lia|].
  pose proof (Qle_bool_zero t Hzero) as Ht.
  assert (Hclock0 : clock w + t == clock w) by (rewrite Hzero; apply Qplus_0_r).
  destruct (pending w) as [|[at_ b] p] eqn:Hp.
  - pose proof (select_end w [fd] t Ht Hp) as Hs.
    pose proof (os_read_end fd w 1024 Hp) as Hr.
    simpl ready_bytes. simpl drop_ready. rewrite app_nil_r.
    destruct (ending w) eqn:He.
    + exists (set_clock (clock w + t) w).
      rewrite (coalesce_timeout _ _ _ _ _ _ Hs). simpl.
      repeat split; auto with frame.
    + exists w. rewrite (coalesce_closed _ _ _ _ _ _ _ Hs Hr).
      repeat split; auto using Qeq_refl with frame.
    + now destruct Hend.
  - pose proof (select_head w [fd] t at_ b p Ht Hp) as Hs.
    rewrite (Qle_bool_plus_0 t Hzero) in Hs. simpl ready_bytes. simpl drop_ready.
    destruct (Qle_bool at_ (clock w)) eqn:H1.
    + pose proof (os_read_ready fd w 1023 at_ b p Hp H1) as Hr.
      rewrite (coalesce_more _ _ _ _ _ _ _ _ _ Hs Hr).
      pose proof (take_ready_length 1023 (clock w) p) as Hl.
      pose proof (take_ready_ready 1023 (clock w) p) as Hb.
      pose proof (take_ready_drop 1023 (clock w) p) as Hd.
      destruct (take_ready 1023 (clock w) p) as [got rest]. simpl in Hl, Hb, Hd.
      cbn [fst snd].
      destruct (IH fd t (data ++ b :: got) (set_pending rest w) Hzero) as
        (w' & Hc & Hclock & Hpend & Hf).
      * simpl. simpl in Hlen. lia.
      * simpl. rewrite Hd. simpl in Hend. now rewrite H1 in Hend.
      * exists w'. simpl in Hc, Hclock, Hpend. rewrite Hc, Hb, Hpend, Hd.
        rewrite <- app_assoc. simpl.
        split; [reflexivity|]. split; [exact Hclock|]. split; [reflexivity|].
        eauto using same_outside_trans with frame.
    + exists (set_clock (clock w + t) w).
      rewrite (coalesce_timeout _ _ _ _ _ _ Hs), app_nil_r. simpl.
      repeat split; auto with frame.
Qed.

Lemma coalesce_zero_broken :
  forall fuel fd t data w,
    t == 0 ->
    (List.length (pending w) < fuel)%nat ->
    drop_ready (clock w) (pending w) = [] -> ending w = Broken ->
    exists w', coalesce fuel fd t data w = Raise OSError w'.
Proof.
  induction fuel as [|fuel IH]; intros fd t data w Hzero Hlen Hdrop Hend; [lia|].
  pose proof (Qle_bool_zero t Hzero) as Ht.
  destruct (pending w) as [|[at_ b] p] eqn:Hp.
  - pose proof (select_end w [fd] t Ht Hp) as Hs.
    pose proof (os_read_end fd w 1024 Hp) as Hr.
    rewrite Hend in Hs, Hr. exists w.
    exact (coalesce_fault _ _ _ _ _ _ _ _ Hs Hr).
  - pose proof (select_head w [fd] t at_ b p Ht Hp) as Hs.
    simpl in Hdrop. destruct (Qle_bool at_ (clock w)) eqn:H1; [|discriminate].
    pose proof (os_read_ready fd w 1023 at_ b p Hp H1) as Hr.
    rewrite (coalesce_more _ _ _ _ _ _ _ _ _ Hs Hr).
    pose proof (take_ready_length 1023 (clock w) p) as Hl.
    pose proof (take_ready_drop 1023 (clock w) p) as Hd.
    destruct (take_ready 1023 (clock w) p) as [got rest]. simpl in Hl, Hd.
    cbn [fst snd]. apply IH.
    + exact Hzero.
    + simpl. simpl in Hlen. lia.
    + simpl. congruence.
    + exact Hend.
Qed.

(** A window of zero is what [main] computes from [--coalesce-ms 0] and from
    any negative value. *)
Lemma window_zero : forall args, coalesce_ms args <= 0 -> window args == 0.
Proof.
  intros args H. unfold window.
  rewrite (Q.max_r _ _ H). reflexivity.
Qed.

(** C6.  With a window of zero, what [_read_event] returns is the byte of the
    first read followed by every byte that can be read at that moment, however
    many there are, and no time has passed since the first read.  It does
    return, unless the stream fails right after those bytes. *)
Theorem read_event_zero_window :
  forall fd t w first w1,
    t == 0 ->
    os_read fd 1 w = Ok first w1 ->
    (forall data w',
        _read_event fd t w = Ok data w' ->
        data = first ++ ready_bytes (clock w1) (pending w1) /\
        clock w' == clock w1 /\
        pending w' = drop_ready (clock w1) (pending w1)) /\
    ((drop_ready (clock w1) (pending w1) = [] -> ending w1 <> Broken) ->
     exists w',
       _read_event fd t w = Ok (first ++ ready_bytes (clock w1) (pending w1)) w' /\
       same_outside w w').
Proof.
  intros fd t w first w1 Hzero Hread.
  assert (E : _read_event fd t w = coalesce (S (List.length (pending w1))) fd t first w1).
  { unfold _read_event, bind. now rewrite Hread. }
  assert (Hgood : (drop_ready (clock w1) (pending w1) = [] -> ending w1 <> Broken) ->
                  exists w',
                    _read_event fd t w
                    = Ok (first ++ ready_bytes (clock w1) (pending w1)) w' /\
                    clock w' == clock w1 /\
                    pending w' = drop_ready (clock w1) (pending w1) /\
                    same_outside w w').
  { intro Hend.
    destruct (coalesce_zero (S (List.length (pending w1))) fd t first w1 Hzero) as
      (w' & Hc & Hclock & Hpend & Hf); [lia | exact Hend |].
    exists w'. rewrite E. split; [exact Hc|]. split; [exact Hclock|].
    split; [exact Hpend|].
    pose proof (os_read_frame fd 1 w) as Hf1. rewrite Hread in Hf1.
    eauto using same_outside_trans. }
  split.
  - intros data w' H.
    destruct (drop_ready (clock w1) (pending w1)) eqn:Hdrop.
    + destruct (ending w1) eqn:Hend.
      * destruct Hgood as (w2 & H2 & Hrest); [discriminate|].
        rewrite H2 in H. injection H as <- <-. tauto.
      * destruct Hgood as (w2 & H2 & Hrest); [discriminate|].
        rewrite H2 in H. injection H as <- <-. tauto.
      * destruct (coalesce_zero_broken (S (List.length (pending w1))) fd t first w1 Hzero)
          as (w2 & H2); [lia | exact Hdrop | exact Hend |].
        rewrite E, H2 in H. discriminate.
    + destruct Hgood as (w2 & H2 & Hrest); [discriminate|].
      rewrite H2 in H. injection H as <- <-. tauto.
  - intro Hend. destruct (Hgood Hend) as (w' & H & _ & _ & Hf). eauto.
Qed.

Lemma read_event_zero_window_witness :
  window {| coalesce_ms := 0 |} == 0 /\
  os_read fileno 1 up_arrow_then_q
  = Ok [x1b] (set_pending [(43201, x5b); (43201, x41); (43202, x71)]
                (set_clock 43201 up_arrow_then_q)) /\
  exists w',
    _read_event fileno (window {| coalesce_ms := 0 |}) up_arrow_then_q
    = Ok ([x1b] ++ [x5b; x41]) w' /\
    same_outside up_arrow_then_q w'.
Proof.
  split; [reflexivity|]. split; [reflexivity|].
  apply (proj2 (read_event_zero_window fileno (window {| coalesce_ms := 0 |})
                  up_arrow_then_q [x1b]
                  (set_pending [(43201, x5b); (43201, x41); (43202, x71)]
                     (set_clock 43201 up_arrow_then_q))
                  (Qeq_refl 0) eq_refl)).
  simpl. discriminate.
Defined.

Example read_event_zero_window_all_buffered :
  exists w', _read_event fileno 0 up_arrow_then_q = Ok [x1b; x5b; x41] w'.
Proof. eexists. reflexivity. Qed.

(** ** One turn of the main loop *)

Lemma print_room :
  forall line w,
    print line w =
    match stdout_room w with
    | Some O => Raise BrokenPipeError w
    | room => Ok tt (write_stdout line (option_map pred room) w)
    end.
Proof. intros line w. unfold print. now destruct (stdout_room w) as [[|n]|]. Qed.

Lemma loop_iteration_exit :
  forall fd t counter w data w1,
    _read_event fd t w = Ok data w1 ->
    data = [x71] \/ data = [x03] ->
    loop_iteration fd t counter w = Ok Break w1.
Proof.
  intros fd t counter w data w1 Hread Hexit.
  unfold loop_iteration, bind. rewrite Hread.
  now destruct Hexit as [-> | ->].
Qed.

Lemma loop_iteration_print :
  forall fd t counter w data w1,
    _read_event fd t w = Ok data w1 ->
    data <> [x71] -> data <> [x03] ->
    loop_iteration fd t counter w =
    match stdout_room w1 with
    | Some O => Raise BrokenPipeError w1
    | room =>
        Ok (Continue (S counter))
           (write_stdout (event_line (S counter) (hms (clock w1)) data)
              (option_map pred room) w1)
    end.
Proof.
  intros fd t counter w data w1 Hread Hq Hc.
  unfold loop_iteration, bind at 1. rewrite Hread.
  rewrite (bytes_eqb_neq _ _ Hq), (bytes_eqb_neq _ _ Hc).
  change (false || false) with false. cbv iota.
  rewrite Nat.add_1_r. unfold bind, strftime_HMS. rewrite print_room.
  now destruct (stdout_room w1) as [[|n]|].
Qed.

Lemma exit_bytes_dec :
  forall data : bytes,
    {data = [x71] \/ data = [x03]} + {data <> [x71] /\ data <> [x03]}.
Proof.
  intro data.
  destruct (bytes_eqb data [x71]) eqn:Eq.
  - left. left. now apply bytes_eqb_eq.
  - destruct (bytes_eqb data [x03]) eqn:Ec.
    + left. right. now apply bytes_eqb_eq.
    + right. split; intros ->; discriminate.
Qed.

(** What a turn can do: leave the loop or fail with standard output
    untouched, or print one line numbered [counter + 1] and go on. *)
Lemma loop_iteration_shape :
  forall fd t counter w,
    match loop_iteration fd t counter w with
    | Ok Break w' => same_outside w w'
    | Ok (Continue c) w' =>
        c = S counter /\ same_terminal w w' /\
        exists ts data, stdout w' = stdout w ++ [event_line (S counter) ts data]
    | Raise _ w' => same_outside w w'
    | Blocked w' => same_outside w w'
    | OutOfFuel _ => False
    end.
Proof.
  intros fd t counter w.
  destruct (read_event_total fd t w) as [Hb Hf].
  destruct (_read_event fd t w) as [data w1 | e w1 | w1 | w1] eqn:Hread;
    simpl in Hb, Hf; try contradiction;
    try (unfold loop_iteration, bind; rewrite Hread; exact Hf).
  destruct (exit_bytes_dec data) as [Hexit | [Hq Hc]].
  - now rewrite (loop_iteration_exit fd t counter w data w1 Hread Hexit).
  - rewrite (loop_iteration_print fd t counter w data w1 Hread Hq Hc).
    pose proof Hf as (F1 & F2 & F3 & F4 & F5 & F6 & F7).
    destruct (stdout_room w1) as [[|n]|]; cbv iota;
      [exact Hf | |];
      (split; [reflexivity|]; split;
       [unfold same_terminal; simpl; tauto |
        exists (hms (clock w1)), data; simpl; now rewrite F5]).
Qed.

(** ** The main loop *)

Lemma same_terminal_refl : forall w, same_terminal w w.
Proof. intro w. unfold same_terminal. tauto. Qed.

Lemma same_terminal_trans :
  forall w1 w2 w3, same_terminal w1 w2 -> same_terminal w2 w3 -> same_terminal w1 w3.
Proof.
  unfold same_terminal. intros w1 w2 w3 H12 H23.
  decompose [and] H12. decompose [and] H23. repeat split; congruence.
Qed.

Lemma same_outside_terminal : forall w w', same_outside w w' -> same_terminal w w'.
Proof. unfold same_outside, same_terminal. tauto. Qed.

(** Whatever the budget, the loop has printed event lines numbered
    consecutively, and nothing else; when the budget is spent it has printed
    one line per turn. *)
Lemma main_loop_lines :
  forall fuel fd t counter w,
    same_terminal w (world_of (main_loop fuel fd t counter w)) /\
    exists evs,
      stdout (world_of (main_loop fuel fd t counter w)) = stdout w ++ numbered counter evs /\
      (forall w', main_loop fuel fd t counter w = OutOfFuel w' -> List.length evs = fuel).
Proof.
  induction fuel as [|fuel IH]; intros fd t counter w.
  - simpl. split; [apply same_terminal_refl|].
    exists []. simpl. now rewrite app_nil_r.
  - simpl. unfold bind.
    pose proof (loop_iteration_shape fd t counter w) as Hs.
    destruct (loop_iteration fd t counter w) as [[|c] w1 | e w1 | w1 | w1];
      try contradiction;
      try (simpl; split; [now apply same_outside_terminal|];
           exists []; simpl; rewrite app_nil_r;
           split; [apply Hs | discriminate]).
    destruct Hs as (-> & Ht & ts & data & Hout).
    destruct (IH fd t (S counter) w1) as (Ht' & evs & Hout' & Hlen).
    split; [eauto using same_terminal_trans|].
    exists ((ts, data) :: evs). split.
    + rewrite Hout', Hout, <- app_assoc. reflexivity.
    + intros w' H. simpl. f_equal. eauto.
Qed.

(** ** [main] on a terminal *)

Lemma window_nonneg : forall args, Qle_bool 0 (window args) = true.
Proof.
  intro args. apply Qle_bool_iff. unfold window, Qdiv.
  apply Qmult_le_0_compat.
  - apply Q.le_max_r.
  - discriminate.
Qed.

(** Opening a world into its fields, with the cases of what standard output
    still accepts: nothing, one to three lines, four or more, no limit. *)
Ltac open_world w :=
  let tty := fresh "tty" in
  let room := fresh "room" in
  destruct w as [tty ?p ?e ?c ?a ?l ?o room ?err];
  cbn [stdin_isatty stdout_room] in *; subst tty;
  destruct room as [[|[|[|[|?n]]]]|]; try lia; try (exfalso; tauto).

Lemma banner_fits_dec : forall w, banner_fits w \/ ~ banner_fits w.
Proof.
  intro w. unfold banner_fits. destruct (stdout_room w) as [n|]; [|now left].
  destruct (Nat.le_gt_cases 4 n); [now left | right; lia].
Qed.

Lemma startup_raw :
  forall w,
    stdin_isatty w = true -> banner_fits w ->
    startup w = Ok tt (raw_world w) /\
    stdin_isatty (raw_world w) = true /\
    attrs (raw_world w) = cfmakeraw (attrs w) /\
    term_log (raw_world w) =
      term_log w ++ [TcGetAttr fileno; TcGetAttr fileno;
                     TcSetAttr fileno TCSAFLUSH (cfmakeraw (attrs w))] /\
    stdout (raw_world w) = stdout w ++ banner /\
    stderr (raw_world w) = stderr w.
Proof.
  intros w Htty Hfits. unfold banner_fits in Hfits.
  open_world w;
    (split; [unfold raw_world; vm_compute; reflexivity|];
     repeat split; try reflexivity;
     unfold raw_world, startup; cbn; now rewrite <- !app_assoc).
Qed.

(** Off a terminal, [main] is over at once. *)
Lemma main_not_a_tty :
  forall fuel args w,
    stdin_isatty w = false ->
    main fuel args w = Ok 2%Z (write_stderr not_a_tty_message w).
Proof. intros fuel args w Htty. unfold main, bind, isatty. now rewrite Htty. Qed.

(** When standard output refuses one of the banner lines, [main] fails before
    it reaches its [try] statement. *)
Lemma main_banner_fails :
  forall args w,
    stdin_isatty w = true -> ~ banner_fits w ->
    exists w' extra,
      (forall fuel, main fuel args w = Raise BrokenPipeError w') /\
      stdout w' = stdout w ++ extra /\ (List.length extra <= 4)%nat /\
      attrs w' = attrs w /\ term_log w' = term_log w ++ [TcGetAttr fileno].
Proof.
  intros args w Htty Hfits. unfold banner_fits in Hfits.
  open_world w; eexists;
    [exists (firstn 0 banner) | exists (firstn 1 banner)
     | exists (firstn 2 banner) | exists (firstn 3 banner)];
    (split; [intro fuel; unfold main, bind; cbn; reflexivity|]);
    cbn; rewrite <- ?app_assoc, ?app_nil_r; repeat split;
    solve [reflexivity | simpl; lia].
Qed.

(** On a terminal, once the banner is out, [main] is its loop run from
    [raw_world] followed by the restoring handler. *)
Lemma main_on_terminal :
  forall fuel args w,
    stdin_isatty w = true -> banner_fits w ->
    main fuel args w =
    match main_loop fuel fileno (window args) 0 (raw_world w) with
    | Ok _ w2 => Ok 0%Z (restore_term fileno (attrs w) w2)
    | Raise e w2 => Raise e (restore_term fileno (attrs w) w2)
    | Blocked w2 => Blocked w2
    | OutOfFuel w2 => OutOfFuel w2
    end.
Proof.
  intros fuel args w Htty Hfits.
  destruct (startup_raw w Htty Hfits) as (Hstart & Hraw & _).
  destruct (main_loop_lines fuel fileno (window args) 0 (raw_world w)) as [Hterm _].
  assert (E : main fuel args w =
              bind (try_finally (main_loop fuel fileno (window args) 0)
                      (tcsetattr fileno TCSADRAIN (attrs w)))
                   (fun _ => ret 0%Z) (raw_world w)).
  { clear Hterm Hraw Hstart. unfold banner_fits in Hfits.
    unfold main, window. cbv zeta.
    generalize (main_loop fuel fileno (Qmax (coalesce_ms args) 0 / 1000) 0).
    intro loop. open_world w; unfold raw_world; vm_compute; reflexivity. }
  rewrite E. unfold bind, try_finally.
  destruct (main_loop fuel fileno (window args) 0 (raw_world w)) as [c w2 | e w2 | w2 | w2];
    try reflexivity;
    destruct Hterm as (Htty2 & _); simpl in Htty2;
    unfold bind, tcsetattr; rewrite Htty2, Hraw; reflexivity.
Qed.

(** ** Leaving [main] *)

(** C2.  When standard input is not a terminal, [main] prints the message on
    standard error and returns 2, whatever else the world holds; no terminal
    call has been made (the log is as it was) and the attributes are
    untouched. *)
Theorem not_a_tty_exits_2 :
  forall fuel args w,
    stdin_isatty w = false ->
    exists w',
      main fuel args w = Ok 2%Z w' /\
      script fuel args w = Exited 2 w' /\
      stderr w' = stderr w ++ ["stdin is not a TTY; run this in an interactive terminal."] /\
      term_log w' = term_log w /\
      attrs w' = attrs w /\
      stdout w' = stdout w /\
      pending w' = pending w.
Proof.
  intros fuel args w Htty.
  pose proof (main_not_a_tty fuel args w Htty) as E.
  exists (write_stderr not_a_tty_message w).
  split; [exact E|]. split; [unfold script; now rewrite E|].
  repeat split.
Qed.

Lemma not_a_tty_exits_2_witness :
  stdin_isatty (redirected [(0, x71)]) = false /\
  exists w',
    main 5 {| coalesce_ms := 20 |} (redirected [(0, x71)]) = Ok 2%Z w' /\
    script 5 {| coalesce_ms := 20 |} (redirected [(0, x71)]) = Exited 2 w' /\
    stderr w' = stderr (redirected [(0, x71)])
                ++ ["stdin is not a TTY; run this in an interactive terminal."] /\
    term_log w' = term_log (redirected [(0, x71)]) /\
    attrs w' = attrs (redirected [(0, x71)]) /\
    stdout w' = stdout (redirected [(0, x71)]) /\
    pending w' = pending (redirected [(0, x71)]).
Proof.
  split; [reflexivity|].
  apply (not_a_tty_exits_2 5 {| coalesce_ms := 20 |} (redirected [(0, x71)])).
  reflexivity.
Defined.

Lemma attrs_eqb_refl : forall a, attrs_eqb a a = true.
Proof.
  intro a. unfold attrs_eqb.
  now rewrite !Bool.eqb_reflx, Z.eqb_refl.
Qed.

Lemma restore_count_entry :
  forall old log,
    restore_count old
      (log ++ [TcGetAttr fileno; TcGetAttr fileno;
               TcSetAttr fileno TCSAFLUSH (cfmakeraw old);
               TcSetAttr fileno TCSADRAIN old])
    = S (restore_count old log) /\
    restore_count old
      (log ++ [TcGetAttr fileno; TcGetAttr fileno;
               TcSetAttr fileno TCSAFLUSH (cfmakeraw old)])
    = restore_count old log.
Proof.
  intros old log. unfold restore_count.
  rewrite !filter_app, !length_app. simpl.
  rewrite attrs_eqb_refl. simpl. lia.
Qed.

(** C1.  On a terminal, once the banner is out, every way [main] ends the
    process -- returning after an exit key, or with an exception from the
    loop in flight -- has made the terminal calls in this order: capture,
    raw mode, and one [tcsetattr] with the captured attributes, which is the
    last call; the attributes are then the original ones.  An exception gives
    a status other than 0.  While the process has not ended, raw mode is on
    and no restoring call has been made. *)
Theorem restore_exactly_once :
  forall fuel args w,
    stdin_isatty w = true -> banner_fits w ->
    match script fuel args w with
    | Exited status w' =>
        term_log w' =
          term_log w ++ [TcGetAttr fileno; TcGetAttr fileno;
                         TcSetAttr fileno TCSAFLUSH (cfmakeraw (attrs w));
                         TcSetAttr fileno TCSADRAIN (attrs w)] /\
        restore_count (attrs w) (term_log w') = S (restore_count (attrs w) (term_log w)) /\
        attrs w' = attrs w /\
        ((status = 0%Z /\ main fuel args w = Ok 0%Z w') \/
         (status <> 0%Z /\
          exists e w2, main fuel args w = Raise e w2 /\ w' = write_stderr (traceback e) w2))
    | Running w' =>
        term_log w' =
          term_log w ++ [TcGetAttr fileno; TcGetAttr fileno;
                         TcSetAttr fileno TCSAFLUSH (cfmakeraw (attrs w))] /\
        restore_count (attrs w) (term_log w') = restore_count (attrs w) (term_log w) /\
        attrs w' = cfmakeraw (attrs w)
    end.
Proof.
  intros fuel args w Htty Hfits.
  destruct (startup_raw w Htty Hfits) as (_ & _ & Hattrs & Hlog & _).
  destruct (main_loop_lines fuel fileno (window args) 0 (raw_world w)) as [Hterm _].
  destruct (restore_count_entry (attrs w) (term_log w)) as [Hone Hzero].
  unfold script. rewrite (main_on_terminal fuel args w Htty Hfits).
  destruct (main_loop fuel fileno (window args) 0 (raw_world w)) as [c w2 | e w2 | w2 | w2];
    destruct Hterm as (_ & Ha & Hl & _); simpl in Ha, Hl.
  - assert (L : term_log (restore_term fileno (attrs w) w2) =
                term_log w ++ [TcGetAttr fileno; TcGetAttr fileno;
                               TcSetAttr fileno TCSAFLUSH (cfmakeraw (attrs w));
                               TcSetAttr fileno TCSADRAIN (attrs w)]).
    { simpl. rewrite Hl, Hlog, <- app_assoc. reflexivity. }
    rewrite L. repeat split; auto.
  - assert (L : term_log (write_stderr (traceback e) (restore_term fileno (attrs w) w2)) =
                term_log w ++ [TcGetAttr fileno; TcGetAttr fileno;
                               TcSetAttr fileno TCSAFLUSH (cfmakeraw (attrs w));
                               TcSetAttr fileno TCSADRAIN (attrs w)]).
    { simpl. rewrite Hl, Hlog, <- app_assoc. reflexivity. }
    rewrite L. repeat split; auto.
    right. split; [discriminate|]. eauto.
  - rewrite Hl, Hlog, Ha, Hattrs. auto.
  - rewrite Hl, Hlog, Ha, Hattrs. auto.
Qed.

Lemma restore_exactly_once_witness :
  stdin_isatty lost_terminal = true /\
  banner_fits lost_terminal /\
  match script 5 default_args lost_terminal with
  | Exited status w' =>
      term_log w' =
        term_log lost_terminal
        ++ [TcGetAttr fileno; TcGetAttr fileno;
            TcSetAttr fileno TCSAFLUSH (cfmakeraw (attrs lost_terminal));
            TcSetAttr fileno TCSADRAIN (attrs lost_terminal)] /\
      restore_count (attrs lost_terminal) (term_log w')
      = S (restore_count (attrs lost_terminal) (term_log lost_terminal)) /\
      attrs w' = attrs lost_terminal /\
      ((status = 0%Z /\ main 5 default_args lost_terminal = Ok 0%Z w') \/
       (status <> 0%Z /\
        exists e w2,
          main 5 default_args lost_terminal = Raise e w2 /\
          w' = write_stderr (traceback e) w2))
  | Running w' =>
      term_log w' =
        term_log lost_terminal
        ++ [TcGetAttr fileno; TcGetAttr fileno;
            TcSetAttr fileno TCSAFLUSH (cfmakeraw (attrs lost_terminal))] /\
      restore_count (attrs lost_terminal) (term_log w')
      = restore_count (attrs lost_terminal) (term_log lost_terminal) /\
      attrs w' = cfmakeraw (attrs lost_terminal)
  end.
Proof.
  split; [reflexivity|]. split; [exact I|].
  exact (restore_exactly_once 5 default_args lost_terminal eq_refl I).
Defined.

Example fault_path_restores :
  exists w',
    script 5 default_args lost_terminal = Exited 1 w' /\
    attrs w' = cooked /\
    term_log w' = [TcGetAttr 0; TcGetAttr 0; TcSetAttr 0 TCSAFLUSH (cfmakeraw cooked);
                   TcSetAttr 0 TCSADRAIN cooked] /\
    stderr w' = ["Traceback (most recent call last): OSError"].
Proof. eexists. vm_compute. repeat split. Qed.

Example exit_key_path_restores :
  exists w',
    script 5 default_args up_arrow_then_q = Exited 0 w' /\
    attrs w' = cooked /\
    term_log w' = [TcGetAttr 0; TcGetAttr 0; TcSetAttr 0 TCSAFLUSH (cfmakeraw cooked);
                   TcSetAttr 0 TCSADRAIN cooked] /\
    stdout w' = banner ++
      ["[000001 12:00:01] len=  3 hex=1b 5b 41 repr=b'\x1b[A' ascii='.[A' | ANSI CSI sequence (starts with ESC [)"].
Proof. eexists. vm_compute. repeat split. Qed.

(** ** The loop, turn by turn *)

(** When [k] turns leave the budget spent in world [w], the loop stands at its
    head in [w] with counter [k + counter]: a larger budget goes on from there. *)
Lemma main_loop_step :
  forall k fd t counter w0 w,
    main_loop k fd t counter w0 = OutOfFuel w ->
    forall j, main_loop (k + j) fd t counter w0 = main_loop j fd t (k + counter) w.
Proof.
  induction k as [|k IH]; intros fd t counter w0 w H j.
  - simpl in H. injection H as <-. reflexivity.
  - simpl in H. simpl. unfold bind in *.
    pose proof (loop_iteration_shape fd t counter w0) as Hs.
    destruct (loop_iteration fd t counter w0) as [[|c] w1 | e w1 | w1 | w1];
      try discriminate; try contradiction.
    destruct Hs as (-> & _).
    rewrite (IH fd t (S counter) w1 w H j). f_equal. lia.
Qed.

Lemma main_next_turn :
  forall k args w0 w,
    stdin_isatty w0 = true -> banner_fits w0 ->
    main k args w0 = OutOfFuel w ->
    main_loop k fileno (window args) 0 (raw_world w0) = OutOfFuel w /\
    main (S k) args w0 =
    match loop_iteration fileno (window args) k w with
    | Ok Break w2 => Ok 0%Z (restore_term fileno (attrs w0) w2)
    | Ok (Continue _) w2 => OutOfFuel w2
    | Raise e w2 => Raise e (restore_term fileno (attrs w0) w2)
    | Blocked w2 => Blocked w2
    | OutOfFuel w2 => OutOfFuel w2
    end.
Proof.
  intros k args w0 w Htty Hfits H.
  rewrite (main_on_terminal k args w0 Htty Hfits) in H.
  assert (Hk : main_loop k fileno (window args) 0 (raw_world w0) = OutOfFuel w).
  { destruct (main_loop k fileno (window args) 0 (raw_world w0)); try discriminate.
    now injection H as ->. }
  split; [exact Hk|].
  rewrite (main_on_terminal (S k) args w0 Htty Hfits).
  replace (S k) with (k + 1)%nat at 1 by lia.
  rewrite (main_loop_step k _ _ _ _ _ Hk 1), Nat.add_0_r.
  simpl. unfold bind.
  now destruct (loop_iteration fileno (window args) k w) as [[|c] w2 | e w2 | w2 | w2].
Qed.

(** A result that is not the end of the budget does not depend on the budget. *)
Lemma main_loop_stable :
  forall k fd t counter w,
    within_budget (main_loop k fd t counter w) ->
    forall j, main_loop (k + j) fd t counter w = main_loop k fd t counter w.
Proof.
  induction k as [|k IH]; intros fd t counter w H j; [contradiction|].
  simpl in *. unfold bind in *.
  destruct (loop_iteration fd t counter w) as [[|c] w1 | e w1 | w1 | w1];
    try reflexivity.
  now apply IH.
Qed.

Lemma main_stable :
  forall k args w,
    within_budget (main k args w) ->
    forall j, main (k + j) args w = main k args w.
Proof.
  intros k args w H j.
  destruct (stdin_isatty w) eqn:Htty.
  - destruct (banner_fits_dec w) as [Hfits | Hfits].
    + rewrite (main_on_terminal k args w Htty Hfits) in H.
      rewrite !(main_on_terminal _ args w Htty Hfits).
      rewrite main_loop_stable; [reflexivity|].
      now destruct (main_loop k fileno (window args) 0 (raw_world w)).
    + destruct (main_banner_fails args w Htty Hfits) as (w' & _ & E & _).
      now rewrite !E.
  - now rewrite !main_not_a_tty.
Qed.

(** C3.  Take any turn of the main loop: [k] turns have been made and the
    loop stands in world [w], where the reader returns [data] and leaves the
    world [w1].  The event is exactly [q] or exactly Ctrl+C if and only if the
    process ends there with status 0 (under every budget that reaches the
    turn), in the world the reader left with the terminal restored -- nothing
    was printed for the event; and if and only if the loop returns at this
    turn with the counter it had. *)
Theorem exit_bytes_end_the_loop :
  forall k args w0 w data w1,
    stdin_isatty w0 = true -> banner_fits w0 ->
    main k args w0 = OutOfFuel w ->
    _read_event fileno (window args) w = Ok data w1 ->
    ((data = [x71] \/ data = [x03]) <->
     (forall n, (k < n)%nat ->
                script n args w0 = Exited 0 (restore_term fileno (attrs w0) w1))) /\
    (forall counter,
        (data = [x71] \/ data = [x03]) <->
        main_loop 1 fileno (window args) counter w = Ok counter w1) /\
    stdout (restore_term fileno (attrs w0) w1) = stdout w /\
    attrs (restore_term fileno (attrs w0) w1) = attrs w0.
Proof.
  intros k args w0 w data w1 Htty Hfits Hk Hread.
  destruct (main_next_turn k args w0 w Htty Hfits Hk) as [_ Hnext].
  destruct (read_event_total fileno (window args) w) as [_ Hframe].
  rewrite Hread in Hframe. simpl in Hframe.
  split; [|split; [|split]].
  - split.
    + intros Hexit n Hn.
      rewrite (loop_iteration_exit _ _ k _ _ _ Hread Hexit) in Hnext.
      replace n with (S k + (n - S k))%nat by lia.
      unfold script. rewrite main_stable; now rewrite Hnext.
    + intro H. specialize (H (S k) (Nat.lt_succ_diag_r k)).
      unfold script in H. rewrite Hnext in H.
      destruct (exit_bytes_dec data) as [Hexit | [Hq Hc]]; [exact Hexit|].
      rewrite (loop_iteration_print _ _ k _ _ _ Hread Hq Hc) in H.
      destruct (stdout_room w1) as [[|n]|]; discriminate.
  - intro counter. simpl. unfold bind. split.
    + intro Hexit.
      now rewrite (loop_iteration_exit _ _ counter _ _ _ Hread Hexit).
    + intro H. destruct (exit_bytes_dec data) as [Hexit | [Hq Hc]]; [exact Hexit|].
      rewrite (loop_iteration_print _ _ counter _ _ _ Hread Hq Hc) in H.
      destruct (stdout_room w1) as [[|n]|]; discriminate.
  - simpl. apply Hframe.
  - reflexivity.
Qed.

Lemma exit_bytes_end_the_loop_witness :
  stdin_isatty up_arrow_then_q = true /\
  banner_fits up_arrow_then_q /\
  main 1 default_args up_arrow_then_q
  = OutOfFuel (world_of (main 1 default_args up_arrow_then_q)) /\
  _read_event fileno (window default_args) (world_of (main 1 default_args up_arrow_then_q))
  = Ok [x71]
      (world_of (_read_event fileno (window default_args)
                   (world_of (main 1 default_args up_arrow_then_q)))) /\
  script 2 default_args up_arrow_then_q
  = Exited 0
      (restore_term fileno (attrs up_arrow_then_q)
         (world_of (_read_event fileno (window default_args)
                      (world_of (main 1 default_args up_arrow_then_q))))).
Proof.
  split; [reflexivity|]. split; [exact I|].
  split; [vm_compute; reflexivity|]. split; [vm_compute; reflexivity|].
  apply (proj1 (proj1 (exit_bytes_end_the_loop 1 default_args up_arrow_then_q
                  (world_of (main 1 default_args up_arrow_then_q)) [x71]
                  (world_of (_read_event fileno (window default_args)
                               (world_of (main 1 default_args up_arrow_then_q))))
                  eq_refl I ltac:(vm_compute; reflexivity) ltac:(vm_compute; reflexivity)))).
  - left. reflexivity.
  - lia.
Defined.

(** C10.  At any turn of the main loop, an event of two bytes or more fails
    the exit test, whatever bytes it holds: provided standard output takes
    the line, the turn prints the line of the event under the next counter
    value and the loop stands at its head again. *)
Theorem coalesced_exit_bytes_do_not_exit :
  forall k args w0 w data w1,
    stdin_isatty w0 = true -> banner_fits w0 ->
    main k args w0 = OutOfFuel w ->
    _read_event fileno (window args) w = Ok data w1 ->
    (2 <= List.length data)%nat ->
    stdout_room w1 <> Some O ->
    bytes_eqb data [x71] || bytes_eqb data [x03] = false /\
    exists w2,
      loop_iteration fileno (window args) k w = Ok (Continue (S k)) w2 /\
      main (S k) args w0 = OutOfFuel w2 /\
      stdout w2 = stdout w ++ [event_line (S k) (hms (clock w1)) data] /\
      same_terminal w w2.
Proof.
  intros k args w0 w data w1 Htty Hfits Hk Hread Hlen Hroom.
  assert (Hq : data <> [x71]) by (intros ->; simpl in Hlen; lia).
  assert (Hc : data <> [x03]) by (intros ->; simpl in Hlen; lia).
  split; [now rewrite (bytes_eqb_neq _ _ Hq), (bytes_eqb_neq _ _ Hc)|].
  destruct (main_next_turn k args w0 w Htty Hfits Hk) as [_ Hnext].
  destruct (read_event_total fileno (window args) w) as [_ Hframe].
  rewrite Hread in Hframe. simpl in Hframe.
  destruct Hframe as (F1 & F2 & F3 & F4 & F5 & F6 & F7).
  pose proof (loop_iteration_print _ _ k _ _ _ Hread Hq Hc) as Hturn.
  exists (write_stdout (event_line (S k) (hms (clock w1)) data)
            (option_map pred (stdout_room w1)) w1).
  assert (E : loop_iteration fileno (window args) k w =
              Ok (Continue (S k))
                 (write_stdout (event_line (S k) (hms (clock w1)) data)
                    (option_map pred (stdout_room w1)) w1)).
  { rewrite Hturn. destruct (stdout_room w1) as [[|n]|]; [contradiction | reflexivity ..]. }
  split; [exact E|]. split; [now rewrite Hnext, E|]. split.
  - simpl. now rewrite F5.
  - unfold same_terminal. simpl. tauto.
Qed.

Lemma coalesced_exit_bytes_do_not_exit_witness :
  stdin_isatty q_with_company = true /\
  banner_fits q_with_company /\
  main 0 default_args q_with_company = OutOfFuel (raw_world q_with_company) /\
  _read_event fileno (window default_args) (raw_world q_with_company)
  = Ok [x71; x61]
      (world_of (_read_event fileno (window default_args) (raw_world q_with_company))) /\
  exists w2,
    loop_iteration fileno (window default_args) 0 (raw_world q_with_company)
    = Ok (Continue 1) w2 /\
    main 1 default_args q_with_company = OutOfFuel w2 /\
    stdout w2 =
      stdout (raw_world q_with_company)
      ++ [event_line 1
            (hms (clock (world_of (_read_event fileno (window default_args)
                                     (raw_world q_with_company)))))
            [x71; x61]] /\
    same_terminal (raw_world q_with_company) w2.
Proof.
  split; [reflexivity|]. split; [exact I|].
  split; [vm_compute; reflexivity|]. split; [vm_compute; reflexivity|].
  apply (proj2 (coalesced_exit_bytes_do_not_exit 0 default_args q_with_company
                  (raw_world q_with_company) [x71; x61]
                  (world_of (_read_event fileno (window default_args)
                               (raw_world q_with_company)))
                  eq_refl I ltac:(vm_compute; reflexivity) ltac:(vm_compute; reflexivity)
                  ltac:(simpl; lia) ltac:(vm_compute; discriminate))).
Defined.

Example q_with_company_is_printed :
  exists w',
    script 1 default_args q_with_company = Running w' /\
    stdout w' = banner ++ ["[000001 12:00:01] len=  2 hex=71 61 repr=b'qa' ascii='qa'"].
Proof. eexists. vm_compute. split; reflexivity. Qed.

(** ** The counter shown on a line *)

Lemma leading_digits_uint :
  forall d rest,
    leading_digits (NilEmpty.string_of_uint d ++ String " " rest)
    = NilEmpty.string_of_uint d.
Proof. induction d; intro rest; simpl; now rewrite ?IHd. Qed.

Lemma leading_digits_zeros :
  forall k s,
    leading_digits (replicate k "0" ++ s) = (replicate k "0" ++ leading_digits s)%string.
Proof. induction k as [|k IH]; intro s; simpl; now rewrite ?IH. Qed.

Lemma string_app_assoc :
  forall a b c : string, ((a ++ b) ++ c = a ++ (b ++ c))%string.
Proof. induction a as [|x a IH]; intros b c; simpl; now rewrite ?IH. Qed.

Lemma uint_of_zeros :
  forall k d,
    NilEmpty.uint_of_string (replicate k "0" ++ NilEmpty.string_of_uint d)
    = Some (Nat.iter k D0 d).
Proof.
  induction k as [|k IH]; intro d; simpl.
  - apply NilEmpty.usu.
  - now rewrite IH.
Qed.

Lemma of_uint_zeros :
  forall k d, Nat.of_uint (Nat.iter k D0 d) = Nat.of_uint d.
Proof. induction k as [|k IH]; intro d; simpl; [reflexivity | apply IH]. Qed.

Lemma decimal_not_empty : forall n, decimal n <> EmptyString.
Proof.
  intros n H. unfold decimal in H.
  assert (E : Nat.to_uint n = Nil).
  { pose proof (NilEmpty.usu (Nat.to_uint n)) as U. rewrite H in U. simpl in U. congruence. }
  pose proof (DecimalNat.Unsigned.to_of (Nat.to_uint n)) as T.
  rewrite DecimalNat.Unsigned.of_to, E in T. discriminate T.
Qed.

Lemma displayed_counter_event_line :
  forall counter ts data, displayed_counter (event_line counter ts data) = Some counter.
Proof.
  intros counter ts data. unfold event_line.
  cbv zeta. simpl append at 1. unfold displayed_counter.
  unfold format_06d, pad_left at 1. rewrite string_app_assoc.
  rewrite leading_digits_zeros. unfold decimal at 2.
  simpl append at 2. rewrite leading_digits_uint.
  fold (decimal counter).
  destruct (replicate (6 - String.length (decimal counter)) "0" ++ decimal counter)%string
    eqn:E.
  - exfalso. destruct (replicate _ _) in E; [|discriminate].
    simpl in E. now apply decimal_not_empty in E.
  - rewrite <- E. unfold decimal at 2. rewrite uint_of_zeros. simpl.
    rewrite of_uint_zeros. f_equal. apply DecimalNat.Unsigned.of_to.
Qed.

(** ** The lines of a session *)

Lemma numbered_nth :
  forall evs counter n line,
    nth_error (numbered counter evs) n = Some line ->
    exists ts data, line = event_line (S (counter + n)) ts data.
Proof.
  induction evs as [|[ts data] evs IH]; intros counter n line H.
  - destruct n; discriminate.
  - destruct n as [|n]; simpl in H.
    + injection H as <-. exists ts, data. now rewrite Nat.add_0_r.
    + destruct (IH (S counter) n line H) as (ts' & data' & ->).
      exists ts', data'. f_equal. lia.
Qed.

Lemma numbered_length :
  forall evs counter, List.length (numbered counter evs) = List.length evs.
Proof.
  induction evs as [|[ts data] evs IH]; intro counter; simpl; [reflexivity|].
  now rewrite IH.
Qed.

Lemma event_lines_none :
  forall w w' extra,
    stdout w' = stdout w ++ extra -> (List.length extra <= 4)%nat ->
    event_lines w w' = [].
Proof.
  intros w w' extra H Hlen. unfold event_lines. rewrite H.
  apply skipn_all2. rewrite length_app. lia.
Qed.

(** The event lines of any run, finished or not, are numbered from 1. *)
Lemma main_event_lines :
  forall fuel args w,
    exists evs,
      event_lines w (world_of (main fuel args w)) = numbered 0 evs /\
      (forall w', main fuel args w = OutOfFuel w' -> List.length evs = fuel).
Proof.
  intros fuel args w.
  destruct (stdin_isatty w) eqn:Htty.
  - destruct (banner_fits_dec w) as [Hfits | Hfits].
    + destruct (startup_raw w Htty Hfits) as (_ & _ & _ & _ & Hout & _).
      destruct (main_loop_lines fuel fileno (window args) 0 (raw_world w))
        as (_ & evs & Hlines & Hlen).
      exists evs. rewrite (main_on_terminal fuel args w Htty Hfits). split.
      * assert (E : stdout (world_of (main_loop fuel fileno (window args) 0 (raw_world w)))
                    = (stdout w ++ banner) ++ numbered 0 evs)
          by now rewrite Hlines, Hout.
        unfold event_lines.
        replace (List.length (stdout w) + 4)%nat with (List.length (stdout w ++ banner))
          by (rewrite length_app; reflexivity).
        destruct (main_loop fuel fileno (window args) 0 (raw_world w));
          simpl in E |- *; rewrite E, skipn_app, skipn_all, Nat.sub_diag; reflexivity.
      * intros w' H. apply (Hlen w').
        destruct (main_loop fuel fileno (window args) 0 (raw_world w)); congruence.
    + destruct (main_banner_fails args w Htty Hfits) as (w' & extra & E & Hout & Hlen & _).
      exists []. rewrite E. split; [|discriminate].
      exact (event_lines_none w w' extra Hout Hlen).
  - exists []. rewrite (main_not_a_tty fuel args w Htty). split; [|discriminate].
    apply event_lines_none with (extra := []); [simpl; now rewrite app_nil_r | simpl; lia].
Qed.

(** C9.  In every run, however far it has got, the line shown for the N-th
    event carries the counter N: it is the event line formatted with N, and
    the number read back from it is N.  A run of [fuel] turns that has met no
    exit event and no fault has printed [fuel] such lines. *)
Theorem counter_matches_line_number :
  forall fuel args w,
    (forall n line,
        nth_error (event_lines w (world_of (main fuel args w))) n = Some line ->
        displayed_counter line = Some (S n) /\
        exists ts data, line = event_line (S n) ts data) /\
    (forall w',
        main fuel args w = OutOfFuel w' ->
        List.length (event_lines w w') = fuel).
Proof.
  intros fuel args w.
  destruct (main_event_lines fuel args w) as (evs & Hlines & Hlen). split.
  - intros n line H. rewrite Hlines in H.
    destruct (numbered_nth evs 0 n line H) as (ts & data & ->).
    split; [apply displayed_counter_event_line | eauto].
  - intros w' H. rewrite H in Hlines. simpl in Hlines.
    rewrite Hlines, numbered_length. eauto.
Qed.

Lemma counter_matches_line_number_witness :
  nth_error (event_lines three_keys (world_of (main 3 default_args three_keys))) 2
  = Some "[000003 12:00:03] len=  1 hex=0d repr=b'\r' ascii='.' | CR (\r) — often Enter/Return; also Ctrl+M"%string /\
  displayed_counter
    "[000003 12:00:03] len=  1 hex=0d repr=b'\r' ascii='.' | CR (\r) — often Enter/Return; also Ctrl+M"
  = Some 3%nat.
Proof.
  assert (H : nth_error (event_lines three_keys (world_of (main 3 default_args three_keys))) 2
              = Some "[000003 12:00:03] len=  1 hex=0d repr=b'\r' ascii='.' | CR (\r) — often Enter/Return; also Ctrl+M"%string)
    by (vm_compute; reflexivity).
  split; [exact H|].
  exact (proj1 (proj1 (counter_matches_line_number 3 default_args three_keys) 2%nat _ H)).
Defined.

Example three_events_numbered :
  exists w',
    main 3 default_args three_keys = OutOfFuel w' /\
    map displayed_counter (skipn 4 (stdout w')) = [Some 1; Some 2; Some 3]%nat.
Proof. eexists. vm_compute. split; reflexivity. Qed.

(** * Further properties *)

(** ** The describer on the whole of its domain *)

Lemma startswith_nil : forall data, startswith data [] = true.
Proof. now destruct data. Qed.

Lemma describe_two_or_more :
  forall a b rest,
    _describe_bytes (a :: b :: rest) =
    if Byte.eqb a x1b && Byte.eqb b x5b then csi_label
    else if Byte.eqb a x1b && Byte.eqb b x4f then ss3_label
    else EmptyString.
Proof.
  intros a b rest. unfold _describe_bytes. cbn [bytes_eqb startswith].
  rewrite !startswith_nil, ?andb_false_r, ?andb_true_r.
  destruct (Byte.eqb a x1b && Byte.eqb b x5b); [reflexivity|].
  now destruct (Byte.eqb a x1b && Byte.eqb b x4f).
Qed.

Lemma describe_one_empty :
  forall b,
    String.eqb (_describe_bytes [b]) EmptyString
    = (32 <=? byte_val b)%nat && negb (Byte.eqb b x7f).
Proof. intro b. destruct b; reflexivity. Qed.

(** X1.  An event of two bytes or more is labelled by its first two bytes
    alone: ESC [ gives the CSI label, ESC O the SS3 label, whatever follows,
    and anything else gives no label -- also when it starts with a byte that
    has a label of its own. *)
Theorem describe_by_prefix :
  forall a b rest,
    (a = x1b /\ b = x5b -> _describe_bytes (a :: b :: rest) = csi_label) /\
    (a = x1b /\ b = x4f -> _describe_bytes (a :: b :: rest) = ss3_label) /\
    (~ (a = x1b /\ (b = x5b \/ b = x4f)) -> _describe_bytes (a :: b :: rest) = EmptyString).
Proof.
  intros a b rest. rewrite describe_two_or_more. repeat split.
  - intros [-> ->]. reflexivity.
  - intros [-> ->]. reflexivity.
  - intro H.
    destruct (Byte.eqb a x1b) eqn:Ea; [|reflexivity].
    apply Byte.byte_dec_bl in Ea.
    destruct (Byte.eqb b x5b) eqn:E1.
    { apply Byte.byte_dec_bl in E1. tauto. }
    destruct (Byte.eqb b x4f) eqn:E2; [|reflexivity].
    apply Byte.byte_dec_bl in E2. tauto.
Qed.

Example describe_cr_lf : _describe_bytes [x0d; x0a] = EmptyString.
Proof. reflexivity. Qed.

Example describe_long_csi :
  _describe_bytes [x1b; x5b; x31; x3b; x35; x43] = csi_label.
Proof. reflexivity. Qed.

(** X2.  The events that get no label are: the empty event, a single byte
    from 0x20 up other than DEL, and an event of two bytes or more that does
    not start with ESC [ or ESC O. *)
Theorem describe_unlabelled :
  forall data,
    _describe_bytes data = EmptyString <->
    (data = [] \/
     (exists b, data = [b] /\ (0x20 <= byte_val b)%nat /\ b <> x7f) \/
     (exists a b rest,
         data = a :: b :: rest /\ ~ (a = x1b /\ (b = x5b \/ b = x4f)))).
Proof.
  intro data. destruct data as [|a [|b rest]].
  - split; [now left | reflexivity].
  - pose proof (describe_one_empty a) as H. split.
    + intro E. right. left. exists a. rewrite E in H. cbn [String.eqb] in H.
      symmetry in H. apply andb_true_iff in H. destruct H as [H1 H2].
      apply Nat.leb_le in H1. split; [reflexivity|]. split; [exact H1|].
      intros ->. discriminate.
    + intros [E | [(b & E & H1 & H2) | (x & y & r & E & _)]]; try discriminate.
      injection E as <-. apply String.eqb_eq. rewrite H.
      apply andb_true_iff. split; [now apply Nat.leb_le|].
      destruct (Byte.eqb a x7f) eqn:E7; [|reflexivity].
      apply Byte.byte_dec_bl in E7. contradiction.
  - rewrite describe_two_or_more. split.
    + intro E. right. right. exists a, b, rest. split; [reflexivity|].
      intros [-> [-> | ->]]; discriminate.
    + intros [E | [(x & E & _) | (x & y & r & E & H)]]; try discriminate.
      injection E as <- <- <-.
      destruct (Byte.eqb a x1b) eqn:Ea; [|reflexivity].
      apply Byte.byte_dec_bl in Ea.
      destruct (Byte.eqb b x5b) eqn:E1.
      { apply Byte.byte_dec_bl in E1. tauto. }
      destruct (Byte.eqb b x4f) eqn:E2; [|reflexivity].
      apply Byte.byte_dec_bl in E2. tauto.
Qed.

(** ** What an event line is made of *)

Lemma no_control_app :
  forall a b, no_control (a ++ b) = no_control a && no_control b.
Proof.
  induction a as [|c a IH]; intro b; simpl; [reflexivity|].
  now rewrite IH, andb_assoc.
Qed.

Lemma no_control_uint : forall d, no_control (NilEmpty.string_of_uint d) = true.
Proof. induction d; simpl; auto. Qed.

Lemma no_control_replicate :
  forall n c, printable_char c = true -> no_control (replicate n c) = true.
Proof. induction n as [|n IH]; intros c H; simpl; [reflexivity|]. now rewrite H, IH. Qed.

Lemma no_control_pad :
  forall width c n,
    printable_char c = true -> no_control (pad_left width c (decimal n)) = true.
Proof.
  intros width c n H. unfold pad_left, decimal.
  now rewrite no_control_app, no_control_replicate, no_control_uint.
Qed.

Lemma no_control_02x : forall b, no_control (format_02x b) = true.
Proof. intro b. destruct b; reflexivity. Qed.

Lemma no_control_hex_bytes :
  forall data, no_control (join " " (map format_02x data)) = true.
Proof.
  induction data as [|b data IH]; [reflexivity|].
  destruct data as [|b' data]; [apply no_control_02x|].
  change (no_control (format_02x b ++ " " ++ join " " (map format_02x (b' :: data))) = true).
  now rewrite !no_control_app, no_control_02x, IH.
Qed.

Lemma no_control_repr_byte :
  forall b, no_control (repr_byte x27 b) = true /\ no_control (repr_byte x22 b) = true.
Proof. intro b. destruct b; split; reflexivity. Qed.

Lemma no_control_concat :
  forall parts,
    Forall (fun s => no_control s = true) parts ->
    no_control (String.concat "" parts) = true.
Proof.
  induction parts as [|s parts IH]; intro H; [reflexivity|].
  inversion H as [|? ? Hs Hrest]; subst.
  destruct parts as [|s' parts]; [exact Hs|].
  change (no_control (s ++ "" ++ String.concat "" (s' :: parts)) = true).
  now rewrite !no_control_app, Hs, IH.
Qed.

Lemma no_control_bytes_repr : forall data, no_control (bytes_repr data) = true.
Proof.
  intro data. unfold bytes_repr.
  destruct (mem_byte x27 data && negb (mem_byte x22 data));
    cbn [no_control]; rewrite no_control_app, no_control_concat; try reflexivity;
    apply Forall_map, Forall_forall; intros b _; apply no_control_repr_byte.
Qed.

Lemma no_control_safe_repr :
  forall data, no_control (string_of_list_ascii (map safe_char data)) = true.
Proof.
  induction data as [|b data IH]; [reflexivity|].
  simpl. rewrite IH, andb_true_r. destruct b; reflexivity.
Qed.

Lemma no_control_describe : forall data, no_control (_describe_bytes data) = true.
Proof.
  intro data. destruct data as [|a [|b rest]].
  - reflexivity.
  - destruct a; reflexivity.
  - rewrite describe_two_or_more.
    destruct (Byte.eqb a x1b && Byte.eqb b x5b); [reflexivity|].
    now destruct (Byte.eqb a x1b && Byte.eqb b x4f).
Qed.

Lemma no_control_hms : forall t, no_control (hms t) = true.
Proof.
  intro t. unfold hms. cbv zeta. unfold format_02d.
  now rewrite !no_control_app, !no_control_pad.
Qed.

Lemma no_control_event_line :
  forall counter ts data,
    no_control ts = true -> no_control (event_line counter ts data) = true.
Proof.
  intros counter ts data Hts. unfold event_line. cbv zeta.
  unfold format_06d, format_r3.
  rewrite !no_control_app, Hts, !no_control_pad, no_control_hex_bytes,
    no_control_bytes_repr, no_control_safe_repr by reflexivity.
  destruct (String.length (_describe_bytes data) =? 0)%nat.
  - now rewrite no_control_describe.
  - now rewrite no_control_app, no_control_describe.
Qed.

Lemma loop_iteration_clean :
  forall fd t counter w,
    exists new,
      stdout (world_of (loop_iteration fd t counter w)) = stdout w ++ new /\
      Forall (fun line => no_control line = true) new.
Proof.
  intros fd t counter w.
  destruct (read_event_total fd t w) as [_ Hf].
  destruct (_read_event fd t w) as [data w1 | e w1 | w1 | w1] eqn:Hread;
    simpl in Hf; destruct Hf as (_ & _ & _ & _ & Hout & _);
    try (exists []; unfold loop_iteration, bind; rewrite Hread; simpl;
         rewrite app_nil_r; split; [exact Hout | constructor]).
  destruct (exit_bytes_dec data) as [Hexit | [Hq Hc]].
  - exists []. rewrite (loop_iteration_exit fd t counter w data w1 Hread Hexit).
    simpl. rewrite app_nil_r. split; [exact Hout | constructor].
  - rewrite (loop_iteration_print fd t counter w data w1 Hread Hq Hc).
    destruct (stdout_room w1) as [[|n]|].
    + exists []. simpl. rewrite app_nil_r. split; [exact Hout | constructor].
    + exists [event_line (S counter) (hms (clock w1)) data]. simpl. rewrite Hout.
      split; [reflexivity|]. repeat constructor.
      apply no_control_event_line, no_control_hms.
    + exists [event_line (S counter) (hms (clock w1)) data]. simpl. rewrite Hout.
      split; [reflexivity|]. repeat constructor.
      apply no_control_event_line, no_control_hms.
Qed.

Lemma main_loop_clean :
  forall fuel fd t counter w,
    exists new,
      stdout (world_of (main_loop fuel fd t counter w)) = stdout w ++ new /\
      Forall (fun line => no_control line = true) new.
Proof.
  induction fuel as [|fuel IH]; intros fd t counter w.
  - exists []. simpl. rewrite app_nil_r. split; [reflexivity | constructor].
  - destruct (loop_iteration_clean fd t counter w) as (new & Hout & Hclean).
    simpl. unfold bind.
    destruct (loop_iteration fd t counter w) as [[|c] w1 | e w1 | w1 | w1];
      try (exists new; split; [exact Hout | exact Hclean]).
    destruct (IH fd t c w1) as (new' & Hout' & Hclean').
    exists (new ++ new'). split.
    + rewrite Hout'. simpl in Hout. now rewrite Hout, app_assoc.
    + apply Forall_app. split; assumption.
Qed.

(** X3.  No event line that [main] prints holds a control character (a byte
    below 0x20, or DEL), whatever bytes the terminal sent: the raw input never
    reaches the screen. *)
Theorem event_lines_hold_no_control_character :
  forall fuel args w line,
    In line (event_lines w (world_of (main fuel args w))) ->
    no_control line = true.
Proof.
  intros fuel args w line Hin.
  destruct (stdin_isatty w) eqn:Htty.
  - destruct (banner_fits_dec w) as [Hfits | Hfits].
    + destruct (startup_raw w Htty Hfits) as (_ & _ & _ & _ & Hout & _).
      destruct (main_loop_clean fuel fileno (window args) 0 (raw_world w))
        as (new & Hnew & Hclean).
      rewrite (main_on_terminal fuel args w Htty Hfits) in Hin.
      assert (E : event_lines w
                    (world_of
                       match main_loop fuel fileno (window args) 0 (raw_world w) with
                       | Ok _ w2 => Ok 0%Z (restore_term fileno (attrs w) w2)
                       | Raise e w2 => Raise e (restore_term fileno (attrs w) w2)
                       | Blocked w2 => Blocked w2
                       | OutOfFuel w2 => OutOfFuel w2
                       end) = new).
      { unfold event_lines.
        replace (List.length (stdout w) + 4)%nat with (List.length (stdout w ++ banner))
          by (rewrite length_app; reflexivity).
        rewrite Hout in Hnew.
        destruct (main_loop fuel fileno (window args) 0 (raw_world w));
          simpl in Hnew |- *; rewrite Hnew, skipn_app, skipn_all, Nat.sub_diag; reflexivity. }
      rewrite E in Hin. rewrite Forall_forall in Hclean. now apply Hclean.
    + destruct (main_banner_fails args w Htty Hfits) as (w' & extra & E & Hout & Hlen & _).
      rewrite E in Hin. simpl in Hin.
      rewrite (event_lines_none w w' extra Hout Hlen) in Hin. contradiction.
  - rewrite (main_not_a_tty fuel args w Htty) in Hin. simpl in Hin.
    rewrite (event_lines_none w (write_stderr not_a_tty_message w) []) in Hin;
      [contradiction | simpl; now rewrite app_nil_r | simpl; lia].
Qed.

Lemma event_lines_hold_no_control_character_witness :
  In "[000002 12:00:02] len=  3 hex=1b 4f 50 repr=b'\x1bOP' ascii='.OP' | ANSI SS3 sequence (starts with ESC O)"%string
     (event_lines three_keys (world_of (main 3 default_args three_keys))) /\
  no_control
    "[000002 12:00:02] len=  3 hex=1b 4f 50 repr=b'\x1bOP' ascii='.OP' | ANSI SS3 sequence (starts with ESC O)"
  = true.
Proof.
  assert (H : In "[000002 12:00:02] len=  3 hex=1b 4f 50 repr=b'\x1bOP' ascii='.OP' | ANSI SS3 sequence (starts with ESC O)"%string
                (event_lines three_keys (world_of (main 3 default_args three_keys))))
    by (vm_compute; tauto).
  split; [exact H|].
  exact (event_lines_hold_no_control_character 3 default_args three_keys _ H).
Defined.

(** ** The [hex=] field read back *)

Lemma byte_of_val : forall b, Byte.of_N (N.of_nat (byte_val b)) = Some b.
Proof.
  intro b. unfold byte_val.
  rewrite <- Byte.to_nat_via_N, <- Byte.of_nat_via_N. apply Byte.of_to_nat.
Qed.

Lemma decode_hex_cons :
  forall b rest,
    decode_hex (format_02x b ++ " " ++ rest) = option_map (cons b) (decode_hex rest).
Proof.
  intros b rest. unfold format_02x.
  cbn [append decode_hex].
  change (read_hex2 (String (hex_digit (byte_val b / 16))
                       (String (hex_digit (byte_val b mod 16)) EmptyString)))
    with (read_hex2 (format_02x b)).
  now rewrite format_02x_reads_back, byte_of_val.
Qed.

Lemma decode_hex_one : forall b, decode_hex (format_02x b) = Some [b].
Proof.
  intro b. unfold format_02x. cbn [decode_hex].
  change (read_hex2 (String (hex_digit (byte_val b / 16))
                       (String (hex_digit (byte_val b mod 16)) EmptyString)))
    with (read_hex2 (format_02x b)).
  now rewrite format_02x_reads_back, byte_of_val.
Qed.

(** X4.  The [hex=] field of an event line gives the event back: decoding the
    space-separated pairs of digits yields exactly the bytes of the event, so
    two events with the same field are the same event. *)
Theorem hex_field_round_trip :
  forall data,
    decode_hex (join " " (map format_02x data)) = Some data /\
    (forall data',
        join " " (map format_02x data') = join " " (map format_02x data) -> data' = data).
Proof.
  assert (R : forall data, decode_hex (join " " (map format_02x data)) = Some data).
  { induction data as [|b data IH]; [reflexivity|].
    destruct data as [|b' data]; [apply decode_hex_one|].
    change (decode_hex (format_02x b ++ " " ++ join " " (map format_02x (b' :: data)))
            = Some (b :: b' :: data)).
    now rewrite decode_hex_cons, IH. }
  intro data. split; [apply R|].
  intros data' H. pose proof (R data') as H'. rewrite H, R in H'. congruence.
Qed.

(** ** Which bytes make one event *)

Lemma burst_take_ready :
  forall n t now p,
    burst t now p =
    (fst (take_ready n now p) ++ fst (burst t now (snd (take_ready n now p))),
     snd (burst t now (snd (take_ready n now p)))).
Proof.
  induction n as [|n IH]; intros t now p.
  - simpl. now destruct (burst t now p).
  - destruct p as [|[at_ b] p]; [reflexivity|].
    simpl. destruct (Qle_bool at_ now) eqn:E.
    + rewrite (IH t now p). destruct (take_ready n now p) as [got rest]. reflexivity.
    + simpl. rewrite E. now destruct (Qle_bool at_ (now + t)); [destruct (burst t at_ p)|].
Qed.

Lemma burst_ready :
  forall t now at_ b p,
    Qle_bool at_ now = true ->
    burst t now ((at_, b) :: p) = (b :: fst (burst t now p), snd (burst t now p)).
Proof. intros. simpl. rewrite H. now destruct (burst t now p). Qed.

Lemma burst_soon :
  forall t now at_ b p,
    Qle_bool at_ now = false -> Qle_bool at_ (now + t) = true ->
    burst t now ((at_, b) :: p) = (b :: fst (burst t at_ p), snd (burst t at_ p)).
Proof. intros. simpl. rewrite H, H0. now destruct (burst t at_ p). Qed.

Lemma burst_late :
  forall t now at_ b p,
    Qle_bool at_ now = false -> Qle_bool at_ (now + t) = false ->
    burst t now ((at_, b) :: p) = ([], (at_, b) :: p).
Proof. intros. simpl. now rewrite H, H0. Qed.

Lemma coalesce_burst :
  forall fuel fd t data w,
    (List.length (pending w) < fuel)%nat -> Qle_bool 0 t = true ->
    (snd (burst t (clock w) (pending w)) = [] -> ending w <> Broken) ->
    exists w',
      coalesce fuel fd t data w = Ok (data ++ fst (burst t (clock w) (pending w))) w' /\
      pending w' = snd (burst t (clock w) (pending w)) /\
      same_outside w w'.
Proof.
  induction fuel as [|fuel IH]; intros fd t data w Hlen Ht Hend; [lia|].
  destruct (pending w) as [|[at_ b] p] eqn:Hp.
  - pose proof (select_end w [fd] t Ht Hp) as Hs.
    pose proof (os_read_end fd w 1024 Hp) as Hr.
    cbn [burst fst snd] in *. rewrite app_nil_r. destruct (ending w) eqn:He.
    + exists (set_clock (clock w + t) w).
      rewrite (coalesce_timeout _ _ _ _ _ _ Hs).
      split; [reflexivity|]. split; [exact Hp | auto with frame].
    + exists w. rewrite (coalesce_closed _ _ _ _ _ _ _ Hs Hr).
      split; [reflexivity|]. split; [exact Hp | auto with frame].
    + now destruct Hend.
  - pose proof (select_head w [fd] t at_ b p Ht Hp) as Hs.
    assert (Hstep : forall w1,
               pending w1 = (at_, b) :: p -> ending w1 = ending w -> same_outside w w1 ->
               Qle_bool at_ (clock w1) = true ->
               select [fd] t w = Ok [fd] w1 ->
               burst t (clock w) ((at_, b) :: p)
               = (b :: fst (burst t (clock w1) p), snd (burst t (clock w1) p)) ->
               exists w',
                 coalesce (S fuel) fd t data w
                 = Ok (data ++ fst (burst t (clock w) ((at_, b) :: p))) w' /\
                 pending w' = snd (burst t (clock w) ((at_, b) :: p)) /\
                 same_outside w w').
    { intros w1 Hp1 He1 Hf1 Hready Hsel Hb.
      pose proof (os_read_ready fd w1 1023 at_ b p Hp1 Hready) as Hr.
      rewrite (coalesce_more _ _ _ _ _ _ _ _ _ Hsel Hr), Hb.
      pose proof (take_ready_length 1023 (clock w1) p) as Hl.
      pose proof (burst_take_ready 1023 t (clock w1) p) as Ht1.
      destruct (take_ready 1023 (clock w1) p) as [got rest]. cbn [fst snd] in *.
      destruct (IH fd t (data ++ b :: got) (set_pending rest w1))
        as (w' & Hc & Hpend & Hf).
      - simpl. simpl in Hlen. lia.
      - exact Ht.
      - simpl. intro Hnil. rewrite He1. apply Hend. now rewrite Hb, Ht1.
      - exists w'. simpl in Hc, Hpend. rewrite Hc, Hpend, Ht1. cbn [fst snd].
        rewrite <- app_assoc. split; [reflexivity|]. split; [reflexivity|].
        eauto using same_outside_trans with frame. }
    destruct (Qle_bool at_ (clock w)) eqn:H1.
    + apply (Hstep w); auto with frame. now apply burst_ready.
    + destruct (Qle_bool at_ (clock w + t)) eqn:H2.
      * apply (Hstep (set_clock at_ w)); auto with frame.
        -- apply Qle_bool_refl.
        -- now apply burst_soon.
      * exists (set_clock (clock w + t) w).
        rewrite (coalesce_timeout _ _ _ _ _ _ Hs), (burst_late _ _ _ _ _ H1 H2).
        cbn [fst snd]. rewrite app_nil_r.
        split; [reflexivity|]. split; [exact Hp | auto with frame].
Qed.

(** X5.  One event is a burst: the byte of the first, blocking read, followed
    by every byte that is there when that read returns or arrives within the
    window of the moment the previous byte was taken.  The first byte that
    comes later than that, and all that follow it, stay on the stream for the
    next event.  ([now] is the moment the first read returns.) *)
Theorem read_event_is_a_burst :
  forall fd t w at_ b p now,
    Qle_bool 0 t = true ->
    pending w = (at_, b) :: p ->
    now = (if Qle_bool at_ (clock w) then clock w else at_) ->
    (snd (burst t now p) = [] -> ending w <> Broken) ->
    exists w',
      _read_event fd t w = Ok (b :: fst (burst t now p)) w' /\
      pending w' = snd (burst t now p) /\
      same_outside w w'.
Proof.
  intros fd t w at_ b p now Ht Hp Hnow Hend.
  assert (Hread : exists w1,
             os_read fd 1 w = Ok [b] w1 /\ pending w1 = p /\ clock w1 = now /\
             same_outside w w1).
  { destruct (Qle_bool at_ (clock w)) eqn:H.
    - exists (set_pending p w). rewrite (os_read_ready fd w 0 at_ b p Hp H).
      subst now. simpl. auto with frame.
    - exists (set_pending p (set_clock at_ w)).
      rewrite (os_read_wait fd w 0 at_ b p Hp H). subst now. simpl.
      repeat split; eauto using same_outside_trans with frame. }
  destruct Hread as (w1 & Hr & Hp1 & Hc1 & Hf1).
  destruct (coalesce_burst (S (List.length (pending w1))) fd t [b] w1)
    as (w' & Hc & Hpend & Hf); [lia | exact Ht | |].
  - rewrite Hp1, Hc1. destruct Hf1 as (_ & -> & _). exact Hend.
  - exists w'. split.
    + unfold _read_event, bind. rewrite Hr, Hc, Hp1, Hc1. reflexivity.
    + rewrite Hp1, Hc1 in Hpend. split; [exact Hpend|]. eauto using same_outside_trans.
Qed.

Lemma read_event_is_a_burst_witness :
  Qle_bool 0 (window default_args) = true /\
  exists w',
    _read_event fileno (window default_args) up_arrow_fast = Ok [x1b; x5b; x41] w' /\
    pending w' = [] /\
    same_outside up_arrow_fast w'.
Proof.
  split; [reflexivity|].
  exact (read_event_is_a_burst fileno (window default_args) up_arrow_fast
           43201 x1b [(43201 + 5 / 1000, x5b); (43201 + 10 / 1000, x41)] 43201
           eq_refl eq_refl eq_refl ltac:(discriminate)).
Defined.

Example slow_bytes_are_split :
  exists w',
    _read_event fileno (window default_args) up_arrow_slow = Ok [x1b] w' /\
    map snd (pending w') = [x5b; x41].
Proof. eexists. vm_compute. split; reflexivity. Qed.

(** ** No byte is lost *)

Lemma read_event_bytes :
  forall fd t w,
    Qle_bool 0 t = true ->
    match _read_event fd t w with
    | Ok data w' =>
        map snd (pending w) = data ++ map snd (pending w') /\ same_outside w w'
    | Blocked w' => w' = w
    | _ => True
    end.
Proof.
  intros fd t w Ht. destruct (pending w) as [|[at_ b] p] eqn:Hp.
  - rewrite (read_event_end fd t w Ht Hp).
    destruct (ending w); try exact I; [reflexivity|].
    rewrite Hp. auto with frame.
  - destruct (read_event_some fd t w at_ b p Ht Hp) as
      [(more & w' & -> & Hm & Hf) | (w' & -> & _)]; [|exact I].
    split; [|exact Hf]. simpl. now rewrite Hm.
Qed.

Lemma loop_iteration_bytes :
  forall fd t counter w,
    Qle_bool 0 t = true ->
    match loop_iteration fd t counter w with
    | Ok Break w' =>
        exists x, (x = [x71] \/ x = [x03]) /\
                  map snd (pending w) = x ++ map snd (pending w') /\
                  stdout w' = stdout w
    | Ok (Continue c) w' =>
        exists ts data,
          c = S counter /\
          stdout w' = stdout w ++ [event_line (S counter) ts data] /\
          map snd (pending w) = data ++ map snd (pending w')
    | Blocked w' => w' = w
    | _ => True
    end.
Proof.
  intros fd t counter w Ht.
  pose proof (read_event_bytes fd t w Ht) as Hb.
  destruct (_read_event fd t w) as [data w1 | e w1 | w1 | w1] eqn:Hread;
    try (unfold loop_iteration, bind; rewrite Hread; exact Hb).
  destruct Hb as (Hbytes & _ & _ & _ & _ & Hout & _).
  destruct (exit_bytes_dec data) as [Hexit | [Hq Hc]].
  - rewrite (loop_iteration_exit fd t counter w data w1 Hread Hexit).
    exists data. auto.
  - rewrite (loop_iteration_print fd t counter w data w1 Hread Hq Hc).
    destruct (stdout_room w1) as [[|n]|]; [exact I | |];
      exists (hms (clock w1)), data; simpl; rewrite Hout; auto.
Qed.

Lemma main_loop_bytes :
  forall fuel fd t counter w,
    Qle_bool 0 t = true ->
    exists evs,
      stdout (world_of (main_loop fuel fd t counter w)) = stdout w ++ numbered counter evs /\
      match main_loop fuel fd t counter w with
      | Ok _ w' =>
          exists x, (x = [x71] \/ x = [x03]) /\
                    map snd (pending w) = List.concat (map snd evs) ++ x ++ map snd (pending w')
      | Raise _ _ => True
      | Blocked w' | OutOfFuel w' =>
          map snd (pending w) = List.concat (map snd evs) ++ map snd (pending w')
      end.
Proof.
  induction fuel as [|fuel IH]; intros fd t counter w Ht.
  - exists []. simpl. now rewrite app_nil_r.
  - pose proof (loop_iteration_bytes fd t counter w Ht) as Hb.
    pose proof (loop_iteration_shape fd t counter w) as Hs.
    simpl. unfold bind.
    destruct (loop_iteration fd t counter w) as [[|c] w1 | e w1 | w1 | w1].
    + destruct Hb as (x & Hx & Hbytes & Hout). exists []. simpl.
      rewrite app_nil_r. split; [exact Hout|]. exists x. auto.
    + destruct Hb as (ts & data & -> & Hout & Hbytes).
      destruct (IH fd t (S counter) w1 Ht) as (evs & Hout' & Hrest).
      exists ((ts, data) :: evs). split.
      * rewrite Hout', Hout, <- app_assoc. reflexivity.
      * simpl. destruct (main_loop fuel fd t (S counter) w1) as [c w2 | e w2 | w2 | w2].
        -- destruct Hrest as (x & Hx & E). exists x. split; [exact Hx|].
           now rewrite Hbytes, E, <- app_assoc.
        -- exact I.
        -- now rewrite Hbytes, Hrest, <- app_assoc.
        -- now rewrite Hbytes, Hrest, <- app_assoc.
    + exists []. simpl. rewrite app_nil_r. split; [apply Hs | exact I].
    + subst w1. exists []. simpl. now rewrite app_nil_r.
    + contradiction.
Qed.

(** X6.  On a terminal, every byte read after raw mode is entered shows in
    exactly one event line, in the order of arrival: the events printed so
    far, put end to end, followed by what is still to be read, are the input;
    when [main] returns, the exit byte stands between the two.  Standard
    output holds the banner and these event lines, nothing else. *)
Theorem every_byte_is_shown_once :
  forall fuel args w,
    stdin_isatty w = true -> banner_fits w ->
    exists evs,
      stdout (world_of (main fuel args w)) = stdout w ++ banner ++ numbered 0 evs /\
      match main fuel args w with
      | Ok _ w' =>
          exists x, (x = [x71] \/ x = [x03]) /\
                    map snd (pending (raw_world w))
                    = List.concat (map snd evs) ++ x ++ map snd (pending w')
      | Raise _ _ => True
      | Blocked w' | OutOfFuel w' =>
          map snd (pending (raw_world w)) = List.concat (map snd evs) ++ map snd (pending w')
      end.
Proof.
  intros fuel args w Htty Hfits.
  destruct (startup_raw w Htty Hfits) as (_ & _ & _ & _ & Hout & _).
  destruct (main_loop_bytes fuel fileno (window args) 0 (raw_world w) (window_nonneg args))
    as (evs & Hlines & Hbytes).
  exists evs. rewrite (main_on_terminal fuel args w Htty Hfits).
  rewrite Hout, <- app_assoc in Hlines.
  destruct (main_loop fuel fileno (window args) 0 (raw_world w)) as [c w2 | e w2 | w2 | w2];
    simpl in *; auto.
Qed.

Lemma every_byte_is_shown_once_witness :
  stdin_isatty three_keys = true /\
  banner_fits three_keys /\
  exists evs,
    stdout (world_of (main 3 default_args three_keys))
    = stdout three_keys ++ banner ++ numbered 0 evs /\
    match main 3 default_args three_keys with
    | Ok _ w' =>
        exists x, (x = [x71] \/ x = [x03]) /\
                  map snd (pending (raw_world three_keys))
                  = List.concat (map snd evs) ++ x ++ map snd (pending w')
    | Raise _ _ => True
    | Blocked w' | OutOfFuel w' =>
        map snd (pending (raw_world three_keys))
        = List.concat (map snd evs) ++ map snd (pending w')
    end.
Proof.
  split; [reflexivity|]. split; [exact I|].
  exact (every_byte_is_shown_once 3 default_args three_keys eq_refl I).
Defined.

Example three_keys_shown :
  map snd (pending (raw_world three_keys)) = [x61; x1b; x4f; x50; x0d] /\
  exists w',
    main 3 default_args three_keys = OutOfFuel w' /\ pending w' = [] /\
    skipn 4 (stdout w') =
      numbered 0 [("12:00:01", [x61]); ("12:00:02", [x1b; x4f; x50]); ("12:00:03", [x0d])].
Proof. split; [reflexivity|]. eexists. vm_compute. repeat split. Qed.

(** ** The window [main] passes on *)

Lemma Qmax_negative : forall x, x < 0 -> Qmax x 0 = 0.
Proof.
  intros x H. unfold Qmax, GenericMinMax.gmax.
  now rewrite (proj1 (Qlt_alt x 0) H).
Qed.

(** X7.  A negative [--coalesce-ms] is clamped: [main] then runs exactly as
    it does for 0, and what it hands to [select] is never negative. *)
Theorem negative_window_is_clamped :
  forall fuel args w,
    coalesce_ms args < 0 ->
    window args = window {| coalesce_ms := 0 |} /\
    Qle_bool 0 (window args) = true /\
    main fuel args w = main fuel {| coalesce_ms := 0 |} w /\
    script fuel args w = script fuel {| coalesce_ms := 0 |} w.
Proof.
  intros fuel args w H.
  pose proof (Qmax_negative _ H) as E.
  assert (Hmain : main fuel args w = main fuel {| coalesce_ms := 0 |} w).
  { unfold main. cbn [coalesce_ms]. now rewrite E. }
  split; [unfold window; cbn [coalesce_ms]; now rewrite E|].
  split; [apply window_nonneg|]. split; [exact Hmain|].
  unfold script. now rewrite Hmain.
Qed.

Lemma negative_window_is_clamped_witness :
  -5 < 0 /\
  main 3 {| coalesce_ms := -5 |} three_keys = main 3 {| coalesce_ms := 0 |} three_keys.
Proof.
  split; [reflexivity|].
  exact (proj1 (proj2 (proj2 (negative_window_is_clamped 3 {| coalesce_ms := -5 |}
                                 three_keys eq_refl)))).
Defined.

(** ** A terminal that has hung up *)





(** ** Failures *)








(** X11.  [main] returns 0 or 2 and nothing else: 2 when standard input is
    not a terminal, having written the message and touched nothing else; 0 on
    a terminal only, with the attributes it found restored and nothing
    written on standard error. *)
Theorem main_returns_0_or_2 :
  forall fuel args w n w',
    main fuel args w = Ok n w' ->
    (n = 2%Z /\ stdin_isatty w = false /\ w' = write_stderr not_a_tty_message w) \/
    (n = 0%Z /\ stdin_isatty w = true /\ attrs w' = attrs w /\ stderr w' = stderr w).
Proof.
  intros fuel args w n w' H.
  destruct (stdin_isatty w) eqn:Htty.
  - right. destruct (banner_fits_dec w) as [Hfits | Hfits].
    + destruct (startup_raw w Htty Hfits) as (_ & _ & _ & _ & _ & Herr).
      destruct (main_loop_lines fuel fileno (window args) 0 (raw_world w)) as [Hterm _].
      rewrite (main_on_terminal fuel args w Htty Hfits) in H.
      destruct (main_loop fuel fileno (window args) 0 (raw_world w))
        as [c w2 | e2 w2 | w2 | w2]; try discriminate.
      injection H as <- <-. destruct Hterm as (_ & _ & _ & Herr2). simpl in Herr2.
      repeat split. simpl. congruence.
    + destruct (main_banner_fails args w Htty Hfits) as (w1 & _ & E & _).
      rewrite E in H. discriminate.
  - left. rewrite (main_not_a_tty fuel args w Htty) in H. injection H as <- <-.
    auto.
Qed.

Lemma main_returns_0_or_2_witness :
  (exists w', main 5 default_args up_arrow_then_q = Ok 0%Z w') /\
  stdin_isatty up_arrow_then_q = true.
Proof.
  assert (H : main 5 default_args up_arrow_then_q
              = Ok 0%Z (world_of (main 5 default_args up_arrow_then_q)))
    by (vm_compute; reflexivity).
  split; [eexists; exact H|].
  destruct (main_returns_0_or_2 5 default_args up_arrow_then_q 0%Z _ H)
    as [(E & _) | (_ & Htty & _)]; [discriminate E | exact Htty].
Defined.
